(** * Reporting module of the DQN/DDQN assignment: [visualization_utils.py]

    A shallow embedding of the plotting helpers and of the summary-table
    generator, together with the properties stated about them.

    Numbers.  The module handles Python/NumPy floating-point numbers, and
    they are embedded twice.  What is drawn, in which order, and what is
    written where, is stated over exact rationals ([Qc], canonical
    fractions with Leibniz equality), the real numbers of the
    specification's data model; the not-a-number value of a mean of
    nothing is [None] there.  What depends on rounding, on infinity and
    not-a-number, or on who implements a division (the values of the
    smoothing, the numbers in the summary table, the division by a zero
    mean) is stated over binary64 numbers in the module [fp]. *)

From Stdlib Require Import ZArith QArith Qcanon Qcabs Ascii String Sorted Floats.
From stdpp Require Import base tactics option list numbers strings gmap sorting.

Local Open Scope Qc_scope.

(** ** Python exceptions that the modelled code can raise *)

Inductive exn : Type :=
  | ZeroDivisionError
  | ValueError
  | FileNotFoundError
  | FileExistsError
  | IsADirectoryError
  | JSONDecodeError
  | UnicodeDecodeError
  | KeyError.

(** an expression either raises or has a value *)
#[global] Instance exn_ret : MRet (sum exn) := λ A x, inr x.
#[global] Instance exn_bind : MBind (sum exn) := λ A B f r,
  match r with
  | inl e => inl e
  | inr x => f x
  end.

(** ** NumPy fragment *)

Module np.

Definition of_nat (n : nat) : Qc := Q2Qc (inject_Z (Z.of_nat n)).

(** [np.sum] *)
Definition sum (xs : list Qc) : Qc := foldr Qcplus 0 xs.

(** [np.mean]: the arithmetic mean; NumPy answers nan (here [None]) on an
    empty array. *)
Definition mean (xs : list Qc) : option Qc :=
  match xs with
  | [] => None
  | _ => Some (sum xs / of_nat (length xs))
  end.

(** [np.ones(n)] *)
Definition ones (n : nat) : list Qc := replicate n 1.

(** [np.arange(n)] *)
Definition arange (n : nat) : list Qc := of_nat <$> seq 0 n.

(** [arr / c], element by element *)
Definition div_scalar (xs : list Qc) (c : Qc) : list Qc :=
  (λ x, x / c) <$> xs.

(** inner product of two equally long arrays *)
Fixpoint dot (xs ys : list Qc) : Qc :=
  match xs, ys with
  | x :: xs', y :: ys' => x * y + dot xs' ys'
  | _, _ => 0
  end.

(** [np.correlate(a, v, mode='valid')] for [len(v) <= len(a)]: one inner
    product per position at which [v] fits inside [a]. *)
Definition correlate_valid (a v : list Qc) : list Qc :=
  (λ k, dot (take (length v) (drop k a)) v)
    <$> seq 0 (length a - length v + 1).

(** [np.convolve(a, v, mode='valid')]: the longer argument comes first,
    an empty argument is refused, and the result is the correlation with
    the reversed second argument. *)
Definition convolve_valid (a v : list Qc) : exn + list Qc :=
  let '(a, v) := if length a <? length v then (v, a) else (a, v) in
  if length a =? 0 then inl ValueError
  else if length v =? 0 then inl ValueError
  else inr (correlate_valid a (reverse v)).

End np.

(** ** Moving-average smoothing (lines 30-32 and 166-168) *)

Definition window : nat := 50.

(** [np.convolve(rewards, np.ones(window)/window, mode='valid')] *)
Definition smooth (rewards : list Qc) : exn + list Qc :=
  np.convolve_valid rewards (np.div_scalar (np.ones window) (np.of_nat window)).

(** ** Text formatting: the [.Nf] and [+.Nf] format specifications *)

Definition nl : string := String "010" "".

Module fmt.

Definition digit (d : Z) : ascii := ascii_of_nat (48 + Z.to_nat (d `mod` 10)).

(** decimal digits of a natural number, most significant first *)
Fixpoint digits_go (fuel : nat) (n : Z) (acc : string) : string :=
  match fuel with
  | O => acc
  | S fuel' =>
      let acc' := String (digit n) acc in
      if (n `div` 10 =? 0)%Z then acc' else digits_go fuel' (n `div` 10) acc'
  end.

Definition digits (n : Z) : string :=
  digits_go (S (Z.to_nat (Z.log2 n))) n "".

(** exactly [p] digits of [n], zero padded *)
Fixpoint fixed_digits (p : nat) (n : Z) (acc : string) : string :=
  match p with
  | O => acc
  | S p' => fixed_digits p' (n `div` 10) (String (digit n) acc)
  end.

(** nearest integer of a non-negative fraction [a/b], ties to even *)
Definition round_half_even (a : Z) (b : Z) : Z :=
  let fl := (a `div` b)%Z in
  match (2 * (a `mod` b) ?= b)%Z with
  | Lt => fl
  | Gt => (fl + 1)%Z
  | Eq => if Z.even fl then fl else (fl + 1)%Z
  end.

(** [format(x, '.pf')] when [plus] is false and [format(x, '+.pf')] when
    it is true: sign, integer part, point, [p] decimals, the exact value
    rounded to nearest with ties to even. *)
Definition fixed (plus : bool) (p : nat) (x : Qc) : string :=
  let num := Qnum (this x) in
  let den := Zpos (Qden (this x)) in
  let n := round_half_even (Z.abs num * 10 ^ Z.of_nat p) den in
  let sign := if (num <? 0)%Z then "-" else if plus then "+" else "" in
  sign ++ digits (n `div` 10 ^ Z.of_nat p)
       ++ match p with
          | O => ""
          | S _ => "." ++ fixed_digits p (n `mod` 10 ^ Z.of_nat p) ""
          end.

(** the same for a NumPy scalar that may be nan *)
Definition fixed_nan (plus : bool) (p : nat) (x : option Qc) : string :=
  match x with
  | Some q => fixed plus p q
  | None => if plus then "+nan" else "nan"
  end.

Definition is_digit (c : ascii) : bool :=
  let n := nat_of_ascii c in (48 <=? n)%nat && (n <=? 57)%nat.

Fixpoint all_digits (s : string) : bool :=
  match s with
  | EmptyString => true
  | String c s' => is_digit c && all_digits s'
  end.

(** recogniser of [d...d.d] after its first digit: further digits, a
    point, one digit *)
Fixpoint decimal_tail (s : string) : bool :=
  match s with
  | EmptyString => false
  | String c s' =>
      if Ascii.eqb c "."
      then match s' with
           | String d EmptyString => is_digit d
           | _ => false
           end
      else is_digit c && decimal_tail s'
  end.

(** recogniser of [d...d.d]: at least one digit, a point, one digit *)
Definition one_decimal (s : string) : bool :=
  match s with
  | EmptyString => false
  | String c s' => is_digit c && decimal_tail s'
  end.

(** recogniser of an explicit sign followed by [d...d.d] *)
Definition signed_one_decimal (s : string) : bool :=
  match s with
  | String c s' => (Ascii.eqb c "+" || Ascii.eqb c "-") && one_decimal s'
  | EmptyString => false
  end.

End fmt.

Arguments fmt.digit : simpl never.
Arguments fmt.is_digit : simpl never.
Arguments fmt.round_half_even : simpl never.

(** ** Data model *)

(** [{'mean': ..., 'std': ..., 'rewards': [...]}] *)
Record algo_stats : Type := AlgoStats {
  mean : Qc;
  std : Qc;
  rewards : list Qc
}.

(** [{'DQN': {...}, 'DDQN': {...}}] *)
Record env_results : Type := EnvResults {
  DQN : algo_stats;
  DDQN : algo_stats
}.

(** The results mapping: a [dict] from environment name to its entries,
    kept as the list of its items in insertion order, which is the order
    [dict.items()] and [dict.keys()] iterate in. *)
Definition results_dict : Type := list (string * env_results).

(** A JSON document as [json.load] returns it; JSON [null] is Python's
    [None]. *)
#[warnings="-register-all"]
Inductive json : Type :=
  | JNull
  | JBool (b : bool)
  | JNum (q : Qc)
  | JStr (s : string)
  | JArr (l : list json)
  | JObj (l : list (string * json)).

(** ** Matplotlib: a figure is the record of the calls made on its axes *)

Inductive value : Type :=
  | VInt (z : Z)
  | VNum (q : Qc)
  | VStat (x : option Qc)            (* a NumPy scalar, [None] for nan *)
  | VStr (s : string)
  | VBool (b : bool)
  | VArr (l : list Qc)
  | VStats (l : list (option Qc))
  | VRange (lo hi : nat)
  | VStrs (l : list string)
  | VPair (a b : value).

Record call : Type := Call {
  c_method : string;
  c_args : list value;
  c_kwargs : list (string * value)
}.

Record figure : Type := Figure {
  f_figsize : nat * nat;
  f_axes : list (list call);
  f_tight_layout : bool
}.

(** ** The world: file system, console, open figures, caller's objects *)

Inductive content : Type :=
  | Text (s : string)
  | Png (fig : figure) (dpi : nat) (bbox_inches : string).

Record world : Type := World {
  w_dirs : gset string;
  w_files : gmap string content;
  w_stdout : list string;
  w_figs : list figure;               (* pyplot's open figures, current first *)
  w_heap : gmap nat results_dict      (* objects the caller holds *)
}.

(** ** Computations that update the world and may raise *)

Definition M (A : Type) : Type := world → (exn + A) * world.

#[global] Instance M_ret : MRet M := λ A x w, (inr x, w).
#[global] Instance M_bind : MBind M := λ A B f m w,
  match m w with
  | (inl e, w') => (inl e, w')
  | (inr x, w') => f x w'
  end.

Definition raise {A} (e : exn) : M A := λ w, (inl e, w).
Definition lift {A} (r : exn + A) : M A := λ w, (r, w).

(** [for x in xs: body(x)] *)
Fixpoint for_ {A} (xs : list A) (body : A → M unit) : M unit :=
  match xs with
  | [] => mret tt
  | x :: xs' => body x ;; for_ xs' body
  end.

(** ** Paths *)

Fixpoint has_slash (s : string) : bool :=
  match s with
  | EmptyString => false
  | String c s' => Ascii.eqb c "/" || has_slash s'
  end.

(** The directory an entry lives in: the text before the last ["/"] of its
    path, and the empty string, which stands for the working directory,
    when the path has none.  Directories are identified by the text that
    names them. *)
Fixpoint parent (p : string) : string :=
  match p with
  | EmptyString => ""
  | String c p' => if has_slash p' then String c (parent p') else ""
  end.



Definition is_dir (w : world) (p : string) : bool :=
  bool_decide (p ∈ w_dirs w).

Definition is_file (w : world) (p : string) : bool :=
  bool_decide (is_Some (w_files w !! p)).

(** what creating or truncating the entry [p] answers; the empty path
    names no entry *)
Definition check_writable (w : world) (p : string) : exn + unit :=
  if bool_decide (p = "") then inl FileNotFoundError
  else if is_dir w p then inl IsADirectoryError
  else if is_dir w (parent p) then inr tt
  else inl FileNotFoundError.

Definition set_dirs (d : gset string) (w : world) : world :=
  World d (w_files w) (w_stdout w) (w_figs w) (w_heap w).
Definition set_files (f : gmap string content) (w : world) : world :=
  World (w_dirs w) f (w_stdout w) (w_figs w) (w_heap w).
Definition set_stdout (o : list string) (w : world) : world :=
  World (w_dirs w) (w_files w) o (w_figs w) (w_heap w).
Definition set_figs (g : list figure) (w : world) : world :=
  World (w_dirs w) (w_files w) (w_stdout w) g (w_heap w).

(** ** Operating-system and built-in calls *)

(** [os.path.exists(p)]: the empty path names nothing, not even the
    working directory *)
Definition os_path_exists (p : string) : M bool :=
  λ w, (inr (negb (bool_decide (p = "")) && (is_file w p || is_dir w p)), w).

(** [os.makedirs(d, exist_ok=True)] for a directory [d] of the working
    directory: refuses the empty name and a name taken by a regular file;
    otherwise the directory exists afterwards.  The directories above [d]
    that a name with separators brings in are not modelled. *)
Definition os_makedirs (d : string) : M unit :=
  λ w, if bool_decide (d = "") then (inl FileNotFoundError, w)
       else if is_file w d then (inl FileExistsError, w)
       else (inr tt, set_dirs ({[d]} ∪ w_dirs w) w).

(** [open(p, 'w')]: creates or truncates; the handle is the path. *)
Definition open_w (p : string) : M string :=
  λ w, match check_writable w p with
       | inl e => (inl e, w)
       | inr _ => (inr p, set_files (<[p := Text ""]> (w_files w)) w)
       end.

(** [f.write(s)] on a handle opened for writing: appends. *)
Definition file_write (f : string) (s : string) : M unit :=
  λ w, let old := match w_files w !! f with
                  | Some (Text t) => t
                  | _ => ""
                  end in
       (inr tt, set_files (<[f := Text (old +:+ s)]> (w_files w)) w).

(** [print(s)] *)
Definition print (s : string) : M unit :=
  λ w, (inr tt, set_stdout (w_stdout w ++ [s]) w).

(** [a / b] on Python numbers *)
Definition truediv (a b : Qc) : exn + Qc :=
  if bool_decide (b = 0) then inl ZeroDivisionError else inr (a / b).

(** ** Pyplot calls *)

Definition colors : list string :=
  ["#1f77b4"; "#ff7f0e"; "#2ca02c"; "#d62728"].

Definition color (i : nat) : value := VStr (default "" (colors !! i)).

(** [plt.subplots(1, n, figsize=...)]: a new current figure with [n] empty
    axes; the axes are referred to by their position. *)
Definition plt_subplots (n : nat) (figsize : nat * nat) : M unit :=
  λ w, (inr tt, set_figs (Figure figsize (replicate n []) false :: w_figs w) w).

(** a method call on the axes number [i] of the current figure *)
Definition ax_call (i : nat) (c : call) : M unit :=
  λ w, match w_figs w with
       | fig :: figs =>
           let axes := match f_axes fig !! i with
                       | Some cs => <[i := cs ++ [c]]> (f_axes fig)
                       | None => f_axes fig
                       end in
           (inr tt, set_figs (Figure (f_figsize fig) axes (f_tight_layout fig) :: figs) w)
       | [] => (inr tt, w)
       end.

(** [plt.tight_layout()] *)
Definition plt_tight_layout : M unit :=
  λ w, match w_figs w with
       | fig :: figs =>
           (inr tt, set_figs (Figure (f_figsize fig) (f_axes fig) true :: figs) w)
       | [] => (inr tt, w)
       end.

(** [plt.savefig(p, dpi=..., bbox_inches=...)]: the current figure is
    written to [p]. *)
Definition plt_savefig (p : string) (dpi : nat) (bbox_inches : string) : M unit :=
  λ w, match check_writable w p with
       | inl e => (inl e, w)
       | inr _ =>
           let fig := default (Figure (0%nat, 0%nat) [] false) (head (w_figs w)) in
           (inr tt, set_files (<[p := Png fig dpi bbox_inches]> (w_files w)) w)
       end.

(** [plt.close()] *)
Definition plt_close : M unit :=
  λ w, (inr tt, set_figs (tail (w_figs w)) w).

(** ** The functions of [visualization_utils.py] *)

Definition qz (z : Z) : Qc := Q2Qc (inject_Z z).
Definition qd (n : Z) (d : positive) : Qc := Q2Qc (n # d).

(** arithmetic on NumPy scalars: nan is absorbing *)
Definition stat_sub (a b : option Qc) : option Qc := x ← a; y ← b; Some (x - y).
Definition stat_add (a b : option Qc) : option Qc := x ← a; y ← b; Some (x + y).

(** list comprehension whose element expression may raise *)
Fixpoint comprehension {A B} (f : A → exn + B) (xs : list A) : exn + list B :=
  match xs with
  | [] => inr []
  | x :: xs' =>
      match f x with
      | inl e => inl e
      | inr y => match comprehension f xs' with
                 | inl e => inl e
                 | inr ys => inr (y :: ys)
                 end
      end
  end.

(** [d[k]] on a results mapping *)
Fixpoint dict_get (d : results_dict) (k : string) : exn + env_results :=
  match d with
  | [] => inl KeyError
  | (k', v) :: d' => if bool_decide (k' = k) then inr v else dict_get d' k
  end.

(** A bar drawn by [ax.bar(x, height, width)]: bars are centred on [x]. *)
Record rectangle : Type := Rectangle {
  get_x : Qc;
  get_width : Qc;
  get_height : Qc
}.

(** [ax.bar(x, height, width, **kwargs)]; answers the bars drawn *)
Definition ax_bar (i : nat) (x height : list Qc) (width : Qc)
    (kwargs : list (string * value)) : M (list rectangle) :=
  ax_call i (Call "bar" [VArr x; VArr height; VNum width] kwargs) ;;
  mret (zip_with (λ c h, Rectangle (c - width / qz 2) width h) x height).

(** Python's [<] on lists of numbers *)
Fixpoint list_ltb (l1 l2 : list Qc) : bool :=
  match l1, l2 with
  | x :: l1', y :: l2' =>
      if bool_decide (x = y) then list_ltb l1' l2' else bool_decide (x < y)
  | [], _ :: _ => true
  | _, [] => false
  end.

(** The comparisons [==] and [<] of the keys of a sweep mapping. *)
Class PyOrd (K : Type) : Type := {
  key_eqb : K → K → bool;
  key_ltb : K → K → bool
}.

(** Keys that are mutually comparable: [<] is a strict total order
    compatible with [==]. *)
Class PyTotalOrd (K : Type) `{PyOrd K} : Prop := {
  key_eqb_not_ltb a b : key_eqb a b = true → key_ltb a b = false ∧ key_ltb b a = false;
  key_ltb_asym a b : key_ltb a b = true → key_ltb b a = false;
  key_leb_trans a b c : key_ltb b a = false → key_ltb c b = false → key_ltb c a = false
}.

#[global] Instance Qc_PyOrd : PyOrd Qc := {|
  key_eqb a b := bool_decide (a = b);
  key_ltb a b := bool_decide (a < b)
|}.

#[global] Instance Z_PyOrd : PyOrd Z := {|
  key_eqb := Z.eqb;
  key_ltb := Z.ltb
|}.

Section sorted.
Context {K : Type} `{PyOrd K}.

(** Python's [<] on the pairs [(value, rewards)] *)
Definition item_ltb (a b : K * list Qc) : bool :=
  if key_eqb a.1 b.1 then list_ltb a.2 b.2 else key_ltb a.1 b.1.

Fixpoint insert_item (x : K * list Qc) (l : list (K * list Qc)) : list (K * list Qc) :=
  match l with
  | [] => [x]
  | y :: l' => if item_ltb y x then y :: insert_item x l' else x :: y :: l'
  end.

(** [sorted(items)]: a stable sort that only asks [<] *)
Definition sorted (items : list (K * list Qc)) : list (K * list Qc) :=
  foldr insert_item [] items.

(** [a <= b] on keys: not [b < a] *)
Definition key_le (a b : K) : Prop := key_ltb b a = false.
End sorted.

Section program.

(** Library functions taken as given: the real square root behind
    [np.std], and the parser of [json.load] ([None] when the text is not
    valid JSON). *)
Variable np_sqrt : Qc → Qc.
Variable json_loads : string → option json.

(** [np.std]: population standard deviation, nan on an empty array *)
Definition np_std (xs : list Qc) : option Qc :=
  m ← np.mean xs;
  Some (np_sqrt (np.sum ((λ x, (x - m) * (x - m)) <$> xs) / np.of_nat (length xs))).

(** [open(p, 'r')]: answers what the file holds *)
Definition open_r (p : string) : M content :=
  λ w, if bool_decide (p = "") then (inl FileNotFoundError, w)
       else if is_dir w p then (inl IsADirectoryError, w)
       else match w_files w !! p with
            | None => (inl FileNotFoundError, w)
            | Some c => (inr c, w)
            end.

(** [json.load(f)]: an image is not text, and text need not be JSON *)
Definition json_load (f : content) : M json :=
  match f with
  | Png _ _ _ => raise UnicodeDecodeError
  | Text s => match json_loads s with
              | Some v => mret v
              | None => raise JSONDecodeError
              end
  end.

(** lines 16-21 *)
Definition load_results (results_file : string) : M json :=
  b ← os_path_exists results_file;
  if b : bool then
    f ← open_r results_file;
    json_load f
  else mret JNull.

(** lines 23-47 *)
Definition plot_training_comparison (dqn_rewards ddqn_rewards : list Qc)
    (env_name save_dir : string) : M unit :=
  os_makedirs save_dir ;;
  plt_subplots 1 (12, 6)%nat ;;
  let ax := 0%nat in
  dqn_smooth ← lift (smooth dqn_rewards);
  ddqn_smooth ← lift (smooth ddqn_rewards);
  ax_call ax (Call "plot" [VArr dqn_rewards]
    [("alpha", VNum (qd 3 10)); ("color", color 0); ("label", VStr "DQN (raw)")]) ;;
  ax_call ax (Call "plot" [VArr dqn_smooth]
    [("color", color 0); ("linewidth", VInt 2); ("label", VStr "DQN (smoothed)")]) ;;
  ax_call ax (Call "plot" [VArr ddqn_rewards]
    [("alpha", VNum (qd 3 10)); ("color", color 1); ("label", VStr "DDQN (raw)")]) ;;
  ax_call ax (Call "plot" [VArr ddqn_smooth]
    [("color", color 1); ("linewidth", VInt 2); ("label", VStr "DDQN (smoothed)")]) ;;
  ax_call ax (Call "set_xlabel" [VStr "Episode"] [("fontsize", VInt 14)]) ;;
  ax_call ax (Call "set_ylabel" [VStr "Reward"] [("fontsize", VInt 14)]) ;;
  ax_call ax (Call "set_title" [VStr ("Training Curves: " +:+ env_name)]
    [("fontsize", VInt 16); ("fontweight", VStr "bold")]) ;;
  ax_call ax (Call "legend" [] [("fontsize", VInt 12)]) ;;
  ax_call ax (Call "grid" [VBool true] [("alpha", VNum (qd 3 10))]) ;;
  plt_tight_layout ;;
  plt_savefig (save_dir +:+ "/" +:+ env_name +:+ "_training_comparison.png") 300 "tight" ;;
  plt_close.

(** lines 49-79 *)
Definition plot_evaluation_stability (eval_rewards : list Qc)
    (env_name algo_name save_dir : string) : M unit :=
  os_makedirs save_dir ;;
  plt_subplots 2 (14, 5)%nat ;;
  let ax1 := 0%nat in
  let ax2 := 1%nat in
  ax_call ax1 (Call "plot" [VArr eval_rewards]
    [("marker", VStr "o"); ("markersize", VInt 3); ("linewidth", VInt 1);
     ("color", color 0)]) ;;
  ax_call ax1 (Call "axhline" [VStat (np.mean eval_rewards)]
    [("color", VStr "r"); ("linestyle", VStr "--");
     ("label", VStr ("Mean: " +:+ fmt.fixed_nan false 2 (np.mean eval_rewards)))]) ;;
  ax_call ax1 (Call "fill_between"
    [VRange 0 (length eval_rewards);
     VStat (stat_sub (np.mean eval_rewards) (np_std eval_rewards));
     VStat (stat_add (np.mean eval_rewards) (np_std eval_rewards))]
    [("alpha", VNum (qd 2 10)); ("color", VStr "r");
     ("label", VStr ("±1 Std: " +:+ fmt.fixed_nan false 2 (np_std eval_rewards)))]) ;;
  ax_call ax1 (Call "set_xlabel" [VStr "Test Episode"] [("fontsize", VInt 12)]) ;;
  ax_call ax1 (Call "set_ylabel" [VStr "Reward"] [("fontsize", VInt 12)]) ;;
  ax_call ax1 (Call "set_title" [VStr (algo_name +:+ " Stability: " +:+ env_name)]
    [("fontsize", VInt 14); ("fontweight", VStr "bold")]) ;;
  ax_call ax1 (Call "legend" [] []) ;;
  ax_call ax1 (Call "grid" [VBool true] [("alpha", VNum (qd 3 10))]) ;;
  ax_call ax2 (Call "hist" [VArr eval_rewards]
    [("bins", VInt 20); ("color", color 1); ("alpha", VNum (qd 7 10));
     ("edgecolor", VStr "black")]) ;;
  ax_call ax2 (Call "axvline" [VStat (np.mean eval_rewards)]
    [("color", VStr "r"); ("linestyle", VStr "--"); ("linewidth", VInt 2);
     ("label", VStr "Mean")]) ;;
  ax_call ax2 (Call "set_xlabel" [VStr "Reward"] [("fontsize", VInt 12)]) ;;
  ax_call ax2 (Call "set_ylabel" [VStr "Frequency"] [("fontsize", VInt 12)]) ;;
  ax_call ax2 (Call "set_title" [VStr "Reward Distribution"]
    [("fontsize", VInt 14); ("fontweight", VStr "bold")]) ;;
  ax_call ax2 (Call "legend" [] []) ;;
  ax_call ax2 (Call "grid" [VBool true] [("alpha", VNum (qd 3 10)); ("axis", VStr "y")]) ;;
  plt_tight_layout ;;
  plt_savefig (save_dir +:+ "/" +:+ env_name +:+ "_" +:+ algo_name +:+ "_stability.png")
    300 "tight" ;;
  plt_close.

(** lines 81-112; [str] is Python's [str] on the parameter values *)
Definition plot_hyperparameter_comparison {K : Type} `{PyOrd K} (str : K → string)
    (results_dict : list (K * list Qc)) (param_name env_name save_dir : string)
    : M unit :=
  os_makedirs save_dir ;;
  plt_subplots 1 (10, 6)%nat ;;
  let ax := 0%nat in
  let items := sorted results_dict in
  let param_values := (λ it, str it.1) <$> items in
  let mean_rewards := (λ it, np.mean it.2) <$> items in
  let std_rewards := (λ it, np_std it.2) <$> items in
  let x_pos := VArr (np.arange (length param_values)) in
  ax_call ax (Call "bar" [x_pos; VStats mean_rewards]
    [("yerr", VStats std_rewards); ("capsize", VInt 5); ("color", color 2);
     ("alpha", VNum (qd 7 10)); ("edgecolor", VStr "black")]) ;;
  ax_call ax (Call "set_xticks" [x_pos] []) ;;
  ax_call ax (Call "set_xticklabels" [VStrs param_values] []) ;;
  ax_call ax (Call "set_xlabel" [VStr param_name] [("fontsize", VInt 14)]) ;;
  ax_call ax (Call "set_ylabel" [VStr "Average Reward"] [("fontsize", VInt 14)]) ;;
  ax_call ax (Call "set_title" [VStr ("Effect of " +:+ param_name +:+ " on " +:+ env_name)]
    [("fontsize", VInt 16); ("fontweight", VStr "bold")]) ;;
  ax_call ax (Call "grid" [VBool true] [("alpha", VNum (qd 3 10)); ("axis", VStr "y")]) ;;
  plt_tight_layout ;;
  plt_savefig (save_dir +:+ "/" +:+ env_name +:+ "_" +:+ param_name +:+ "_comparison.png")
    300 "tight" ;;
  plt_close.

(** lines 143-150, the local function [autolabel] *)
Definition autolabel (ax : nat) (bars : list rectangle) : M unit :=
  for_ bars (λ bar,
    let height := get_height bar in
    ax_call ax (Call "annotate" [VStr (fmt.fixed false 1 height)]
      [("xy", VPair (VNum (get_x bar + get_width bar / qz 2)) (VNum height));
       ("xytext", VPair (VInt 0) (VInt 3));
       ("textcoords", VStr "offset points");
       ("ha", VStr "center"); ("va", VStr "bottom"); ("fontsize", VInt 10)])).

(** lines 114-157 *)
Definition plot_all_environments_comparison (results : results_dict)
    (save_dir : string) : M unit :=
  os_makedirs save_dir ;;
  let environments := results.*1 in
  dqn_means ← lift (comprehension (λ env, d ← dict_get results env; inr (mean (DQN d))) environments);
  dqn_stds ← lift (comprehension (λ env, d ← dict_get results env; inr (std (DQN d))) environments);
  ddqn_means ← lift (comprehension (λ env, d ← dict_get results env; inr (mean (DDQN d))) environments);
  ddqn_stds ← lift (comprehension (λ env, d ← dict_get results env; inr (std (DDQN d))) environments);
  let x := np.arange (length environments) in
  let width := qd 35 100 in
  plt_subplots 1 (12, 7)%nat ;;
  let ax := 0%nat in
  bars1 ← ax_bar ax ((λ c, c - width / qz 2) <$> x) dqn_means width
    [("yerr", VArr dqn_stds); ("label", VStr "DQN"); ("color", color 0);
     ("alpha", VNum (qd 8 10)); ("capsize", VInt 5); ("edgecolor", VStr "black")];
  bars2 ← ax_bar ax ((λ c, c + width / qz 2) <$> x) ddqn_means width
    [("yerr", VArr ddqn_stds); ("label", VStr "DDQN"); ("color", color 1);
     ("alpha", VNum (qd 8 10)); ("capsize", VInt 5); ("edgecolor", VStr "black")];
  ax_call ax (Call "set_xlabel" [VStr "Environment"]
    [("fontsize", VInt 14); ("fontweight", VStr "bold")]) ;;
  ax_call ax (Call "set_ylabel" [VStr "Average Reward (100 episodes)"]
    [("fontsize", VInt 14); ("fontweight", VStr "bold")]) ;;
  ax_call ax (Call "set_title" [VStr "DQN vs DDQN Performance Comparison"]
    [("fontsize", VInt 16); ("fontweight", VStr "bold")]) ;;
  ax_call ax (Call "set_xticks" [VArr x] []) ;;
  ax_call ax (Call "set_xticklabels" [VStrs environments]
    [("rotation", VInt 15); ("ha", VStr "right")]) ;;
  ax_call ax (Call "legend" [] [("fontsize", VInt 12)]) ;;
  ax_call ax (Call "grid" [VBool true] [("alpha", VNum (qd 3 10)); ("axis", VStr "y")]) ;;
  autolabel ax bars1 ;;
  autolabel ax bars2 ;;
  plt_tight_layout ;;
  plt_savefig (save_dir +:+ "/all_environments_comparison.png") 300 "tight" ;;
  plt_close.

(** lines 159-184 *)
Definition plot_loss_curves (losses : list Qc)
    (env_name algo_name save_dir : string) : M unit :=
  os_makedirs save_dir ;;
  plt_subplots 1 (12, 6)%nat ;;
  let ax := 0%nat in
  (if (window <? length losses)%nat then
     smoothed ← lift (smooth losses);
     ax_call ax (Call "plot" [VArr losses]
       [("alpha", VNum (qd 3 10)); ("color", color 3); ("label", VStr "Loss (raw)")]) ;;
     ax_call ax (Call "plot" [VRange (window - 1) (length losses); VArr smoothed]
       [("color", color 3); ("linewidth", VInt 2); ("label", VStr "Loss (smoothed)")])
   else
     ax_call ax (Call "plot" [VArr losses]
       [("color", color 3); ("linewidth", VInt 2); ("label", VStr "Loss")])) ;;
  ax_call ax (Call "set_xlabel" [VStr "Episode"] [("fontsize", VInt 14)]) ;;
  ax_call ax (Call "set_ylabel" [VStr "Loss"] [("fontsize", VInt 14)]) ;;
  ax_call ax (Call "set_title" [VStr (algo_name +:+ " Training Loss: " +:+ env_name)]
    [("fontsize", VInt 16); ("fontweight", VStr "bold")]) ;;
  ax_call ax (Call "legend" [] [("fontsize", VInt 12)]) ;;
  ax_call ax (Call "grid" [VBool true] [("alpha", VNum (qd 3 10))]) ;;
  ax_call ax (Call "set_yscale" [VStr "log"] []) ;;
  plt_tight_layout ;;
  plt_savefig (save_dir +:+ "/" +:+ env_name +:+ "_" +:+ algo_name +:+ "_loss.png")
    300 "tight" ;;
  plt_close.

(** line 202 *)
Definition improvement_of (dqn_mean ddqn_mean : Qc) : exn + Qc :=
  q ← truediv (ddqn_mean - dqn_mean) (Qcabs dqn_mean);
  inr (q * qz 100).

(** lines 204-206 *)
Definition row_text (env_name : string) (dqn_mean dqn_std ddqn_mean ddqn_std
    improvement : Qc) : string :=
  env_name +:+ " & $" +:+ fmt.fixed false 1 dqn_mean +:+ " \pm "
    +:+ fmt.fixed false 1 dqn_std +:+ "$ & "
    +:+ "$" +:+ fmt.fixed false 1 ddqn_mean +:+ " \pm "
    +:+ fmt.fixed false 1 ddqn_std +:+ "$ & "
    +:+ fmt.fixed true 1 improvement +:+ "\% \\" +:+ nl.

(** lines 186-214 *)
Definition create_summary_table (results : results_dict) (save_path : string)
    : M unit :=
  f ← open_w save_path;
  file_write f ("\begin{table}[h]" +:+ nl) ;;
  file_write f ("\centering" +:+ nl) ;;
  file_write f ("\begin{tabular}{|l|c|c|c|}" +:+ nl) ;;
  file_write f ("\hline" +:+ nl) ;;
  file_write f ("\textbf{Environment} & \textbf{DQN} & \textbf{DDQN} & \textbf{Improvement} \\" +:+ nl) ;;
  file_write f ("\hline" +:+ nl) ;;
  for_ results (λ '(env_name, data),
    let dqn_mean := mean (DQN data) in
    let dqn_std := std (DQN data) in
    let ddqn_mean := mean (DDQN data) in
    let ddqn_std := std (DDQN data) in
    improvement ← lift (improvement_of dqn_mean ddqn_mean);
    file_write f (row_text env_name dqn_mean dqn_std ddqn_mean ddqn_std improvement)) ;;
  file_write f ("\hline" +:+ nl) ;;
  file_write f ("\end{tabular}" +:+ nl) ;;
  file_write f ("\caption{Performance Comparison: DQN vs DDQN (Mean $\pm$ Std over 100 episodes)}" +:+ nl) ;;
  file_write f ("\label{tab:results}" +:+ nl) ;;
  file_write f ("\end{table}" +:+ nl) ;;
  print ("LaTeX table saved to " +:+ save_path).

End program.

(** ** The numbers as IEEE doubles

    The summary table and the smoothing are embedded a second time, over
    binary64 numbers, for the properties that turn on rounding, on infinity
    and not-a-number, and on the difference between a built-in [float] and
    a NumPy scalar.  A built-in [int] of magnitude below [2^52] behaves in
    lines 202-206 as the [float] of the same value. *)

Module fp.

(** who implements the arithmetic of a number: Python's [float], or NumPy's
    [float64], which is what [np.mean] and [np.std] return *)
Inductive kind : Type :=
  | Builtin
  | NumPy.

Record num : Type := Num {
  kind_of : kind;
  val : float
}.

(** a binary operation on a [float] and a [float64] is NumPy's, and so is
    its result *)
Definition result_kind (a b : kind) : kind :=
  match a, b with
  | Builtin, Builtin => Builtin
  | _, _ => NumPy
  end.

(** [a - b] *)
Definition sub (a b : num) : num :=
  Num (result_kind (kind_of a) (kind_of b)) (val a - val b)%float.

(** [a * b] *)
Definition mul (a b : num) : num :=
  Num (result_kind (kind_of a) (kind_of b)) (val a * val b)%float.

(** [abs(a)] *)
Definition abs (a : num) : num := Num (kind_of a) (PrimFloat.abs (val a)).

(** [a / b]: Python's [float] refuses a zero divisor; NumPy, in its default
    error state, warns and answers infinity or not-a-number. *)
Definition truediv (a b : num) : exn + num :=
  match result_kind (kind_of a) (kind_of b) with
  | Builtin =>
      if (val b =? 0)%float then inl ZeroDivisionError
      else inr (Num Builtin (val a / val b)%float)
  | NumPy => inr (Num NumPy (val a / val b)%float)
  end.

(** the literal [100] *)
Definition hundred : num := Num Builtin 100%float.

(** *** Formatting *)

Definition sign_text (plus negative : bool) : string :=
  if negative then "-" else if plus then "+" else "".

(** the non-negative fraction [a/b] with [p] decimals, rounded to nearest,
    ties to even *)
Definition decimal (p : nat) (a b : Z) : string :=
  let n := fmt.round_half_even (a * 10 ^ Z.of_nat p) b in
  fmt.digits (n `div` 10 ^ Z.of_nat p)
    ++ match p with
       | O => ""
       | S _ => "." ++ fmt.fixed_digits p (n `mod` 10 ^ Z.of_nat p) ""
       end.

(** [format(x, '.pf')] and, with [plus], [format(x, '+.pf')] on a [float]
    or a [float64]: the exact value [m * 2^e] of the double is rounded; an
    infinity and not-a-number are spelled out; a negative zero keeps its
    sign. *)
Definition format_f (plus : bool) (p : nat) (x : float) : string :=
  match Prim2SF x with
  | S754_nan => sign_text plus false ++ "nan"
  | S754_infinity s => sign_text plus s ++ "inf"
  | S754_zero s => sign_text plus s ++ decimal p 0 1
  | S754_finite s m e =>
      sign_text plus s
        ++ match e with
           | Zneg k => decimal p (Zpos m) (2 ^ Zpos k)
           | _ => decimal p (Zpos m * 2 ^ e) 1
           end
  end.

Definition is_finite (x : float) : bool :=
  match Prim2SF x with
  | S754_zero _ | S754_finite _ _ _ => true
  | _ => false
  end.

(** *** Moving-average smoothing (lines 30-32 and 166-168) *)

Section inner_product.

(** The inner product [np.convolve] computes at each position.  The order
    in which it adds the products, and whether it fuses a product with an
    addition, is decided by the NumPy build and not by the source. *)
Variable inner : list float → list float → float.

(** [np.ones(n)] *)
Definition ones (n : nat) : list float := replicate n 1%float.

(** [arr / c], element by element *)
Definition div_scalar (xs : list float) (c : float) : list float :=
  (λ x, x / c)%float <$> xs.

(** [np.correlate(a, v, mode='valid')] for [len(v) <= len(a)] *)
Definition correlate_valid (a v : list float) : list float :=
  (λ k, inner (take (length v) (drop k a)) v)
    <$> seq 0 (length a - length v + 1).

(** [np.convolve(a, v, mode='valid')] *)
Definition convolve_valid (a v : list float) : exn + list float :=
  let '(a, v) := if (length a <? length v)%nat then (v, a) else (a, v) in
  if (length a =? 0)%nat then inl ValueError
  else if (length v =? 0)%nat then inl ValueError
  else inr (correlate_valid a (reverse v)).

(** the integer [window] as a double *)
Definition window_float : float := of_uint63 (Uint63.of_Z (Z.of_nat window)).

(** [np.convolve(rewards, np.ones(window)/window, mode='valid')] *)
Definition smooth (rewards : list float) : exn + list float :=
  convolve_valid rewards (div_scalar (ones window) window_float).

End inner_product.




(** *** The summary table (lines 186-214) *)

Record algo_stats : Type := AlgoStats {
  mean : num;
  std : num;
  rewards : list float
}.

Record env_results : Type := EnvResults {
  DQN : algo_stats;
  DDQN : algo_stats
}.

Definition results_dict : Type := list (string * env_results).

(** line 202 *)
Definition improvement_of (dqn_mean ddqn_mean : num) : exn + num :=
  q ← truediv (sub ddqn_mean dqn_mean) (abs dqn_mean);
  inr (mul q hundred).

(** lines 204-206 *)
Definition row_text (env_name : string) (dqn_mean dqn_std ddqn_mean ddqn_std
    improvement : num) : string :=
  env_name +:+ " & $" +:+ format_f false 1 (val dqn_mean) +:+ " \pm "
    +:+ format_f false 1 (val dqn_std) +:+ "$ & "
    +:+ "$" +:+ format_f false 1 (val ddqn_mean) +:+ " \pm "
    +:+ format_f false 1 (val ddqn_std) +:+ "$ & "
    +:+ format_f true 1 (val improvement) +:+ "\% \\" +:+ nl.

(** lines 186-214 *)
Definition create_summary_table (results : results_dict) (save_path : string)
    : M unit :=
  f ← open_w save_path;
  file_write f ("\begin{table}[h]" +:+ nl) ;;
  file_write f ("\centering" +:+ nl) ;;
  file_write f ("\begin{tabular}{|l|c|c|c|}" +:+ nl) ;;
  file_write f ("\hline" +:+ nl) ;;
  file_write f ("\textbf{Environment} & \textbf{DQN} & \textbf{DDQN} & \textbf{Improvement} \\" +:+ nl) ;;
  file_write f ("\hline" +:+ nl) ;;
  for_ results (λ '(env_name, data),
    let dqn_mean := mean (DQN data) in
    let dqn_std := std (DQN data) in
    let ddqn_mean := mean (DDQN data) in
    let ddqn_std := std (DDQN data) in
    improvement ← lift (improvement_of dqn_mean ddqn_mean);
    file_write f (row_text env_name dqn_mean dqn_std ddqn_mean ddqn_std improvement)) ;;
  file_write f ("\hline" +:+ nl) ;;
  file_write f ("\end{tabular}" +:+ nl) ;;
  file_write f ("\caption{Performance Comparison: DQN vs DDQN (Mean $\pm$ Std over 100 episodes)}" +:+ nl) ;;
  file_write f ("\label{tab:results}" +:+ nl) ;;
  file_write f ("\end{table}" +:+ nl) ;;
  print ("LaTeX table saved to " +:+ save_path).

End fp.

(** ** Specification-side definitions: the summary table *)

(** The improvement percentage as the specification words it. *)
Definition improvement_pct (dqn_mean ddqn_mean : Qc) : Qc :=
  (ddqn_mean - dqn_mean) / Qcabs dqn_mean * qz 100.

(** One data row as the specification words it: environment, DQN mean and
    deviation, DDQN mean and deviation, signed improvement. *)
Definition table_row (item : string * env_results) : string :=
  item.1 +:+ " & $" +:+ fmt.fixed false 1 (mean (DQN item.2)) +:+ " \pm "
    +:+ fmt.fixed false 1 (std (DQN item.2)) +:+ "$ & $"
    +:+ fmt.fixed false 1 (mean (DDQN item.2)) +:+ " \pm "
    +:+ fmt.fixed false 1 (std (DDQN item.2)) +:+ "$ & "
    +:+ fmt.fixed true 1 (improvement_pct (mean (DQN item.2)) (mean (DDQN item.2)))
    +:+ "\% \\" +:+ nl.

Definition table_header : string :=
  "\begin{table}[h]" +:+ nl +:+
  "\centering" +:+ nl +:+
  "\begin{tabular}{|l|c|c|c|}" +:+ nl +:+
  "\hline" +:+ nl +:+
  "\textbf{Environment} & \textbf{DQN} & \textbf{DDQN} & \textbf{Improvement} \\" +:+ nl +:+
  "\hline" +:+ nl.

Definition table_footer : string :=
  "\hline" +:+ nl +:+
  "\end{tabular}" +:+ nl +:+
  "\caption{Performance Comparison: DQN vs DDQN (Mean $\pm$ Std over 100 episodes)}" +:+ nl +:+
  "\label{tab:results}" +:+ nl +:+
  "\end{table}" +:+ nl.

Definition concat_lines (ls : list string) : string :=
  foldr String.append "" ls.

Definition confirmation (save_path : string) : string :=
  "LaTeX table saved to " +:+ save_path.

(** The entry [p] can be created or truncated: its directory exists and
    [p] itself is not a directory. *)
Definition writable (w : world) (p : string) : Prop :=
  (p ∉ w_dirs w) ∧ (parent p ∈ w_dirs w).

(** The rows the loop of [create_summary_table] gets to write, and whether
    it runs to its end. *)
Fixpoint rows_written (results : results_dict) : list string * bool :=
  match results with
  | [] => ([], true)
  | item :: rest =>
      if bool_decide (mean (DQN item.2) = 0) then ([], false)
      else let '(rows, ok) := rows_written rest in (table_row item :: rows, ok)
  end.

(** ** Specification-side definitions: the summary table in doubles *)

(** The improvement percentage as the specification words it, evaluated in
    double precision from left to right. *)
Definition improvement_value (dqn_mean ddqn_mean : float) : float :=
  ((ddqn_mean - dqn_mean) / PrimFloat.abs dqn_mean * 100)%float.

(** The DQN mean is zero, positive or negative. *)
Definition zero_mean (item : string * fp.env_results) : bool :=
  (fp.val (fp.mean (fp.DQN item.2)) =? 0)%float.

(** Both means of the environment are built-in floats, so that the
    division of line 202 is Python's own. *)
Definition builtin_means (item : string * fp.env_results) : bool :=
  match fp.kind_of (fp.mean (fp.DQN item.2)), fp.kind_of (fp.mean (fp.DDQN item.2)) with
  | fp.Builtin, fp.Builtin => true
  | _, _ => false
  end.

(** The division of line 202 raises at this environment. *)
Definition division_raises (item : string * fp.env_results) : bool :=
  builtin_means item && zero_mean item.

(** One data row: environment, DQN mean and deviation, DDQN mean and
    deviation with one decimal each, signed improvement with one decimal. *)
Definition table_row_of (item : string * fp.env_results) : string :=
  item.1 +:+ " & $" +:+ fp.format_f false 1 (fp.val (fp.mean (fp.DQN item.2)))
    +:+ " \pm " +:+ fp.format_f false 1 (fp.val (fp.std (fp.DQN item.2)))
    +:+ "$ & $" +:+ fp.format_f false 1 (fp.val (fp.mean (fp.DDQN item.2)))
    +:+ " \pm " +:+ fp.format_f false 1 (fp.val (fp.std (fp.DDQN item.2)))
    +:+ "$ & "
    +:+ fp.format_f true 1
          (improvement_value (fp.val (fp.mean (fp.DQN item.2)))
             (fp.val (fp.mean (fp.DDQN item.2))))
    +:+ "\% \\" +:+ nl.

(** The rows written before the first environment at which the division
    raises, and whether there is none. *)
Fixpoint rows_until_raise (results : fp.results_dict) : list string * bool :=
  match results with
  | [] => ([], true)
  | item :: rest =>
      if division_raises item then ([], false)
      else let '(rows, ok) := rows_until_raise rest in (table_row_of item :: rows, ok)
  end.

(** a built-in float and a NumPy scalar *)
Definition pyfloat (x : float) : fp.num := fp.Num fp.Builtin x.

(** the mapping of the specification's example *)
Definition cartpole_floats : fp.results_dict :=
  [("CartPole-v1",
    fp.EnvResults (fp.AlgoStats (pyfloat 100) (pyfloat 5) [])
                  (fp.AlgoStats (pyfloat 120) (pyfloat 4) []))]%list.

(** a second environment whose DQN mean is a built-in zero *)
Definition builtin_zero_floats : fp.results_dict :=
  cartpole_floats
  ++ [("Acrobot-v1",
       fp.EnvResults (fp.AlgoStats (pyfloat 0) (pyfloat 1) [])
                     (fp.AlgoStats (pyfloat 3) (pyfloat 1) []))]%list.


(** means far apart: the improvement overflows *)
Definition overflowing_floats : fp.results_dict :=
  [("Env",
    fp.EnvResults (fp.AlgoStats (pyfloat (Z.ldexp 1 (-1000))) (pyfloat 1) [])
                  (fp.AlgoStats (pyfloat (Z.ldexp 1 30)) (pyfloat 1) []))]%list.



(** ** Specification-side definitions: what a plotting call does *)

(** the calls of one method recorded in a figure, in the order made *)
Definition calls_of (method : string) (fig : figure) : list call :=
  List.filter (λ c, String.eqb (c_method c) method) (concat (f_axes fig)).

(** the calls of one method in the image saved at [p], if there is one *)
Definition saved_calls (method : string) (w : world) (p : string)
    : option (list call) :=
  match w_files w !! p with
  | Some (Png fig _ _) => Some (calls_of method fig)
  | _ => None
  end.

(** A computation that records the calls [cs] on the only axes of the
    current figure. *)
Definition appends (cs : list call) (m : M unit) : Prop :=
  ∀ d fs o sz old t g h,
    m (World d fs o (Figure sz [old] t :: g) h)
    = (inr tt, World d fs o (Figure sz [old ++ cs] t :: g) h).

(** A computation that records the calls [cs] on the only axes of the
    current figure, lays it out, saves it to [path] and closes it. *)
Definition saves_with (dirs : gset string) (path : string) (cs : list call)
    (m : M unit) : Prop :=
  ∀ fs o sz old t g h,
    m (World dirs fs o (Figure sz [old] t :: g) h)
    = (inr tt,
       World dirs (<[path := Png (Figure sz [old ++ cs] true) 300 "tight"]> fs)
         o g h).

(** A computation that only draws on the current figure. *)
Definition draws {A} (m : M A) : Prop :=
  ∀ d fs o fig g h, ∃ x fig',
    m (World d fs o (fig :: g) h) = (inr x, World d fs o (fig' :: g) h).

(** A computation that draws on the current figure, saves it to [path] and
    closes it, in a world whose directories are [dirs]. *)
Definition saves (dirs : gset string) (path : string) (m : M unit) : Prop :=
  ∀ fs o fig g h, ∃ fig',
    m (World dirs fs o (fig :: g) h)
    = (inr tt, World dirs (<[path := Png fig' 300 "tight"]> fs) o g h).

(** The outcome of a plotting function: the directory exists, one image
    was written to [path], nothing else changed. *)
Definition plots_to (m : M unit) (save_dir path : string) (w : world) : Prop :=
  ∃ fig,
    m w = (inr tt,
           World ({[save_dir]} ∪ w_dirs w)
             (<[path := Png fig 300 "tight"]> (w_files w))
             (w_stdout w) (w_figs w) (w_heap w)).

(** ** Specification-side definitions: mean and standard deviation *)

(** [m] is the arithmetic mean of [xs]: the samples add up to [m] times
    their number; of no samples there is no mean. *)
Definition is_mean (xs : list Qc) (m : option Qc) : Prop :=
  match m with
  | None => xs = []
  | Some m => xs ≠ [] ∧ m * np.of_nat (length xs) = np.sum xs
  end.

(** the sum of the squares of the deviations of [xs] from [m] *)
Definition squared_deviations (xs : list Qc) (m : Qc) : Qc :=
  np.sum ((λ x, (x - m) * (x - m)) <$> xs).

(** [s] is the population standard deviation of [xs]: it is not negative
    and its square is the mean of the squared deviations from the mean,
    the divisor being the number of samples. *)
Definition is_population_std (xs : list Qc) (s : option Qc) : Prop :=
  match s with
  | None => xs = []
  | Some s =>
      ∃ m, is_mean xs (Some m)
         ∧ 0 ≤ s
         ∧ s * s * np.of_nat (length xs) = squared_deviations xs m
  end.

(** the population variance *)
Definition variance (xs : list Qc) : option Qc :=
  m ← np.mean xs;
  Some (squared_deviations xs m / np.of_nat (length xs)).

(** [np_sqrt] answers the square root of [v]; not every rational has one *)
Definition square_root_at (np_sqrt : Qc → Qc) (v : option Qc) : Prop :=
  match v with
  | None => True
  | Some v => 0 ≤ np_sqrt v ∧ np_sqrt v * np_sqrt v = v
  end.

(** the square root of a fraction of two squares *)
Definition rational_sqrt (x : Qc) : Qc :=
  Q2Qc (Z.sqrt (Qnum x) # Pos.sqrt (Qden x)).

(** ** Sample inputs *)

(** [list(range(500))] *)
Definition rewards_500 : list Qc := np.of_nat <$> seq 0 500.

(** the mapping of the specification's example *)
Definition cartpole_results : results_dict :=
  [("CartPole-v1",
    EnvResults (AlgoStats (qz 100) (qz 5) []) (AlgoStats (qz 120) (qz 4) []))]%list.

(** a world with nothing but the working directory *)
Definition fresh_world : world := World {[""]} ∅ [] [] ∅.

(** a world that already has a table, console output, and holds the
    example mapping as object 0 *)
Definition used_world : world :=
  World {[""]} {["summary_table.txt" := Text "old"]} ["earlier output"]%list []
    {[0%nat := cartpole_results]}.

(** a sweep over an integer parameter, inserted out of order *)
Definition batch_sweep : list (Z * list Qc) :=
  [(64%Z, [qz 10; qz 20]); (16%Z, [qz 5]%list); (32%Z, [qz 7; qz 9; qz 11])].

(** a sweep whose variances are squares: 25, 0 and 4 *)
Definition square_sweep : list (Z * list Qc) :=
  [(64%Z, [qz 10; qz 20]); (16%Z, [qz 5]%list); (32%Z, [qz 7; qz 11])].

(** * Properties *)

Section smoothing_facts.

Lemma kernel_uniform (n : nat) (c : Qc) :
  reverse (np.div_scalar (np.ones n) c) = replicate n (1 / c).
Proof.
  unfold np.div_scalar, np.ones.
  rewrite fmap_replicate. apply reverse_replicate.
Qed.

Lemma kernel_length (n : nat) (c : Qc) :
  length (np.div_scalar (np.ones n) c) = n.
Proof. unfold np.div_scalar, np.ones. by rewrite length_fmap, length_replicate. Qed.

Lemma of_nat_nonzero (n : nat) : (0 < n)%nat → np.of_nat n ≠ 0.
Proof.
  intros Hn Heq. unfold np.of_nat in Heq.
  change 0 with (Q2Qc 0) in Heq. apply Q2Qc_eq_iff in Heq.
  unfold Qeq in Heq. simpl in Heq. lia.
Qed.

Lemma smooth_unfold (xs : list Qc) :
  (window ≤ length xs)%nat →
  smooth xs =
    inr ((λ k, np.dot (take window (drop k xs)) (replicate window (1 / np.of_nat window)))
           <$> seq 0 (length xs - window + 1)).
Proof.
  intros Hlen. unfold smooth, np.convolve_valid.
  rewrite kernel_length.
  destruct (length xs <? window)%nat eqn:Hlt.
  { apply Nat.ltb_lt in Hlt. lia. }
  destruct (length xs =? 0)%nat eqn:Hz.
  { apply Nat.eqb_eq in Hz. unfold window in Hlen. lia. }
  rewrite kernel_length. change (window =? 0)%nat with false.
  unfold np.correlate_valid.
  rewrite kernel_uniform, length_replicate. reflexivity.
Qed.

End smoothing_facts.

(** ** Smoothing in doubles *)

Section float_smoothing_facts.
Variable inner : list float → list float → float.






End float_smoothing_facts.



(** ** The summary table *)

Section table_facts.

Lemma append_cons (x : ascii) (a b : string) :
  String x a +:+ b = String x (a +:+ b).
Proof. reflexivity. Qed.

Lemma append_assoc (a b c : string) : (a +:+ b) +:+ c = a +:+ b +:+ c.
Proof. induction a as [|x a IH]; [done|]. rewrite !append_cons. by f_equal. Qed.

Lemma append_nil_r (a : string) : a +:+ "" = a.
Proof. induction a as [|x a IH]; [done|]. rewrite append_cons. by f_equal. Qed.

Lemma Qcabs_zero_iff (x : Qc) : Qcabs x = 0 ↔ x = 0.
Proof.
  split; [apply Qcabs_null | intros ->; by apply Qcabs_pos].
Qed.

Lemma improvement_of_nonzero (dqn ddqn : Qc) :
  dqn ≠ 0 → improvement_of dqn ddqn = inr (improvement_pct dqn ddqn).
Proof.
  intros Hnz. unfold improvement_of, truediv.
  rewrite bool_decide_eq_false_2; [done|].
  by rewrite Qcabs_zero_iff.
Qed.

Lemma improvement_of_zero (ddqn : Qc) :
  improvement_of 0 ddqn = inl ZeroDivisionError.
Proof. reflexivity. Qed.

Lemma check_writable_ok (w : world) (p : string) :
  writable w p → check_writable w p = inr tt.
Proof.
  intros [Hp Hd]. unfold check_writable, is_dir.
  rewrite (bool_decide_eq_false_2 (p = "")) by (intros ->; exact (Hp Hd)).
  by rewrite bool_decide_eq_false_2, bool_decide_eq_true_2.
Qed.

Lemma file_write_run d fs o g h f c s :
  file_write f s (World d (<[f := Text c]> fs) o g h)
  = (inr tt, World d (<[f := Text (c +:+ s)]> fs) o g h).
Proof.
  unfold file_write, set_files. simpl.
  by rewrite lookup_insert_eq, insert_insert_eq.
Qed.

(** the body of the loop of [create_summary_table] *)
Lemma table_loop_run (results : results_dict) d fs o g h f c :
  for_ results (λ '(env_name, data),
      improvement ← lift (improvement_of (mean (DQN data)) (mean (DDQN data)));
      file_write f (row_text env_name (mean (DQN data)) (std (DQN data))
                      (mean (DDQN data)) (std (DDQN data)) improvement))
    (World d (<[f := Text c]> fs) o g h)
  = ((if (rows_written results).2 then inr tt else inl ZeroDivisionError),
     World d (<[f := Text (c +:+ concat_lines (rows_written results).1)]> fs) o g h).
Proof.
  revert c. induction results as [|[env data] rest IH]; intros c.
  - simpl. by rewrite append_nil_r.
  - simpl for_. simpl rows_written.
    unfold mbind at 1, M_bind at 1.
    destruct (bool_decide (mean (DQN data) = 0)) eqn:Hz.
    + apply bool_decide_eq_true_1 in Hz.
      unfold mbind, M_bind, lift. rewrite Hz, improvement_of_zero.
      simpl. by rewrite append_nil_r.
    + apply bool_decide_eq_false_1 in Hz.
      unfold mbind at 1, M_bind at 1, lift.
      rewrite improvement_of_nonzero by done.
      rewrite file_write_run, IH.
      destruct (rows_written rest) as [rows ok]. simpl.
      by rewrite append_assoc.
Qed.

(** what a call of [create_summary_table] does when the path is writable *)
Lemma create_summary_table_run (results : results_dict) (p : string) (w : world) :
  writable w p →
  create_summary_table results p w
  = if (rows_written results).2
    then (inr tt,
          World (w_dirs w)
            (<[p := Text (table_header
                          +:+ concat_lines (rows_written results).1
                          +:+ table_footer)]> (w_files w))
            (w_stdout w ++ [confirmation p]) (w_figs w) (w_heap w))
    else (inl ZeroDivisionError,
          World (w_dirs w)
            (<[p := Text (table_header
                          +:+ concat_lines (rows_written results).1)]> (w_files w))
            (w_stdout w) (w_figs w) (w_heap w)).
Proof.
  intros Hw. destruct w as [d fs o g h].
  unfold create_summary_table.
  unfold mbind at 1, M_bind at 1, open_w.
  rewrite (check_writable_ok _ _ Hw). unfold set_files. simpl w_files.
  simpl w_dirs. simpl w_stdout. simpl w_figs. simpl w_heap.
  do 6 (unfold mbind at 1, M_bind at 1; rewrite file_write_run).
  unfold mbind at 1, M_bind at 1. rewrite table_loop_run.
  destruct (rows_written results) as [rows ok]. simpl fst. simpl snd.
  destruct ok; [|done].
  do 5 (unfold mbind at 1, M_bind at 1; rewrite file_write_run).
  unfold print, set_stdout. simpl.
  do 2 f_equal. f_equal. f_equal.
  rewrite !append_assoc. reflexivity.
Qed.

Lemma create_summary_table_refused (results : results_dict) (p : string)
    (w : world) (e : exn) :
  check_writable w p = inl e →
  create_summary_table results p w = (inl e, w).
Proof.
  intros He. unfold create_summary_table, mbind, M_bind, open_w.
  by rewrite He.
Qed.

End table_facts.

(** ** Shape of a formatted number *)

Section format_facts.

Lemma is_digit_digit (d : Z) : fmt.is_digit (fmt.digit d) = true.
Proof.
  unfold fmt.is_digit, fmt.digit.
  assert (0 ≤ d `mod` 10 < 10)%Z as Hd by (apply Z.mod_pos_bound; lia).
  rewrite nat_ascii_embedding by lia.
  apply andb_true_intro; split; apply Nat.leb_le; lia.
Qed.

Lemma all_digits_cons (c : ascii) (s : string) :
  fmt.all_digits (String c s) = fmt.is_digit c && fmt.all_digits s.
Proof. reflexivity. Qed.

Lemma digits_go_S (fuel : nat) (n : Z) (acc : string) :
  fmt.digits_go (S fuel) n acc
  = if (n `div` 10 =? 0)%Z then String (fmt.digit n) acc
    else fmt.digits_go fuel (n `div` 10) (String (fmt.digit n) acc).
Proof. reflexivity. Qed.

Lemma decimal_tail_cons (c : ascii) (s : string) :
  fmt.decimal_tail (String c s)
  = if Ascii.eqb c "."
    then match s with
         | String d EmptyString => fmt.is_digit d
         | _ => false
         end
    else fmt.is_digit c && fmt.decimal_tail s.
Proof. reflexivity. Qed.

Lemma all_digits_go (fuel : nat) (n : Z) (acc : string) :
  fmt.all_digits acc = true → fmt.all_digits (fmt.digits_go fuel n acc) = true.
Proof.
  revert n acc. induction fuel as [|fuel IH]; intros n acc Hacc; [done|].
  rewrite digits_go_S.
  assert (fmt.all_digits (String (fmt.digit n) acc) = true) as Hacc'.
  { rewrite all_digits_cons, is_digit_digit, Hacc. reflexivity. }
  destruct (n `div` 10 =? 0)%Z; [exact Hacc' | by apply IH].
Qed.

Lemma digits_go_nonempty (fuel : nat) (n : Z) (acc : string) :
  acc ≠ "" → fmt.digits_go fuel n acc ≠ "".
Proof.
  revert n acc. induction fuel as [|fuel IH]; intros n acc Hacc; [done|].
  rewrite digits_go_S.
  destruct (n `div` 10 =? 0)%Z; [discriminate | apply IH; discriminate].
Qed.

Lemma digits_shape (n : Z) :
  ∃ c s, fmt.digits n = String c s
       ∧ fmt.is_digit c = true ∧ fmt.all_digits s = true.
Proof.
  assert (fmt.all_digits (fmt.digits n) = true) as Hall.
  { apply all_digits_go. reflexivity. }
  assert (fmt.digits n ≠ "") as Hne.
  { unfold fmt.digits. rewrite digits_go_S.
    destruct (n `div` 10 =? 0)%Z; [discriminate|].
    apply digits_go_nonempty. discriminate. }
  destruct (fmt.digits n) as [|c s]; [congruence|].
  rewrite all_digits_cons in Hall. apply andb_prop in Hall as [Hc Hs].
  exists c, s. auto.
Qed.

Lemma decimal_tail_digits (s : string) (d : ascii) :
  fmt.all_digits s = true → fmt.is_digit d = true →
  fmt.decimal_tail (s +:+ String "." (String d "")) = true.
Proof.
  intros Hs Hd. induction s as [|c s IH].
  - exact Hd.
  - rewrite append_cons, decimal_tail_cons.
    rewrite all_digits_cons in Hs. apply andb_prop in Hs as [Hc Hs].
    destruct (Ascii.eqb c ".") eqn:Hdot.
    + apply Ascii.eqb_eq in Hdot. subst c. discriminate Hc.
    + rewrite Hc. apply IH, Hs.
Qed.

End format_facts.

(** ** The summary table in doubles *)

Section float_facts.

Lemma abs_eqb_zero (x : float) :
  (PrimFloat.abs x =? 0)%float = (x =? 0)%float.
Proof.
  rewrite !FloatAxioms.eqb_spec, FloatAxioms.abs_spec.
  destruct (Prim2SF x) as [[]|[]| |[] m e]; reflexivity.
Qed.

Lemma improvement_of_run (dqn ddqn : fp.num) :
  fp.improvement_of dqn ddqn
  = match fp.kind_of ddqn, fp.kind_of dqn with
    | fp.Builtin, fp.Builtin =>
        if (fp.val dqn =? 0)%float then inl ZeroDivisionError
        else inr (fp.Num fp.Builtin (improvement_value (fp.val dqn) (fp.val ddqn)))
    | _, _ => inr (fp.Num fp.NumPy (improvement_value (fp.val dqn) (fp.val ddqn)))
    end.
Proof.
  destruct dqn as [[] x], ddqn as [[] y];
    unfold fp.improvement_of, fp.truediv, fp.sub, fp.abs; simpl;
    rewrite ?abs_eqb_zero; try reflexivity.
  by destruct (x =? 0)%float.
Qed.

Lemma improvement_of_item (item : string * fp.env_results) :
  fp.improvement_of (fp.mean (fp.DQN item.2)) (fp.mean (fp.DDQN item.2))
  = if division_raises item then inl ZeroDivisionError
    else inr (fp.Num (fp.result_kind (fp.kind_of (fp.mean (fp.DDQN item.2)))
                        (fp.kind_of (fp.mean (fp.DQN item.2))))
                (improvement_value (fp.val (fp.mean (fp.DQN item.2)))
                   (fp.val (fp.mean (fp.DDQN item.2))))).
Proof.
  rewrite improvement_of_run. unfold division_raises, builtin_means, zero_mean.
  destruct (fp.kind_of (fp.mean (fp.DDQN item.2))),
    (fp.kind_of (fp.mean (fp.DQN item.2))); try reflexivity.
Qed.

(** the body of the loop of [fp.create_summary_table] *)
Lemma float_loop_run (results : fp.results_dict) d fs o g h f c :
  for_ results (λ '(env_name, data),
      improvement ← lift (fp.improvement_of (fp.mean (fp.DQN data))
                            (fp.mean (fp.DDQN data)));
      file_write f (fp.row_text env_name (fp.mean (fp.DQN data))
                      (fp.std (fp.DQN data)) (fp.mean (fp.DDQN data))
                      (fp.std (fp.DDQN data)) improvement))
    (World d (<[f := Text c]> fs) o g h)
  = ((if (rows_until_raise results).2 then inr tt else inl ZeroDivisionError),
     World d (<[f := Text (c +:+ concat_lines (rows_until_raise results).1)]> fs) o g h).
Proof.
  revert c. induction results as [|[env data] rest IH]; intros c.
  - simpl. by rewrite append_nil_r.
  - simpl for_. simpl rows_until_raise.
    unfold mbind at 1, M_bind at 1.
    unfold mbind at 1, M_bind at 1, lift.
    pose proof (improvement_of_item (env, data)) as Hi. cbn [snd] in Hi. rewrite Hi.
    destruct (division_raises (env, data)) eqn:Hz.
    + simpl. by rewrite append_nil_r.
    + rewrite file_write_run, IH.
      destruct (rows_until_raise rest) as [rows ok]. simpl.
      by rewrite append_assoc.
Qed.

(** what a call of [fp.create_summary_table] does when the path is
    writable *)
Lemma float_table_run (results : fp.results_dict) (p : string) (w : world) :
  writable w p →
  fp.create_summary_table results p w
  = if (rows_until_raise results).2
    then (inr tt,
          World (w_dirs w)
            (<[p := Text (table_header
                          +:+ concat_lines (rows_until_raise results).1
                          +:+ table_footer)]> (w_files w))
            (w_stdout w ++ [confirmation p]) (w_figs w) (w_heap w))
    else (inl ZeroDivisionError,
          World (w_dirs w)
            (<[p := Text (table_header
                          +:+ concat_lines (rows_until_raise results).1)]> (w_files w))
            (w_stdout w) (w_figs w) (w_heap w)).
Proof.
  intros Hw. destruct w as [d fs o g h].
  unfold fp.create_summary_table.
  unfold mbind at 1, M_bind at 1, open_w.
  rewrite (check_writable_ok _ _ Hw). unfold set_files. simpl w_files.
  simpl w_dirs. simpl w_stdout. simpl w_figs. simpl w_heap.
  do 6 (unfold mbind at 1, M_bind at 1; rewrite file_write_run).
  unfold mbind at 1, M_bind at 1. rewrite float_loop_run.
  destruct (rows_until_raise results) as [rows ok]. simpl fst. simpl snd.
  destruct ok; [|done].
  do 5 (unfold mbind at 1, M_bind at 1; rewrite file_write_run).
  unfold print, set_stdout. simpl.
  do 2 f_equal. f_equal. f_equal.
  rewrite !append_assoc. reflexivity.
Qed.

Lemma float_table_refused (results : fp.results_dict) (p : string)
    (w : world) (e : exn) :
  check_writable w p = inl e →
  fp.create_summary_table results p w = (inl e, w).
Proof.
  intros He. unfold fp.create_summary_table, mbind, M_bind, open_w.
  by rewrite He.
Qed.

Lemma rows_until_raise_none (results : fp.results_dict) :
  Forall (λ item, division_raises item = false) results →
  rows_until_raise results = (table_row_of <$> results, true).
Proof.
  induction 1 as [|item rest Hnz _ IH]; [done|].
  simpl. by rewrite Hnz, IH.
Qed.

Lemma rows_until_raise_first (pre post : fp.results_dict)
    (item : string * fp.env_results) :
  Forall (λ it, division_raises it = false) pre →
  division_raises item = true →
  rows_until_raise (pre ++ item :: post) = (table_row_of <$> pre, false).
Proof.
  intros Hpre Hz. induction Hpre as [|it pre Hnz _ IH]; simpl.
  - by rewrite Hz.
  - by rewrite Hnz, IH.
Qed.


Lemma nonzero_does_not_raise (results : fp.results_dict) :
  Forall (λ item, zero_mean item = false) results →
  Forall (λ item, division_raises item = false) results.
Proof.
  intros Hnz. eapply Forall_impl; [exact Hnz|].
  intros item Hz. unfold division_raises. simpl in Hz.
  by rewrite Hz, andb_false_r.
Qed.

Lemma decimal_1_shape (a b : Z) : fmt.one_decimal (fp.decimal 1 a b) = true.
Proof.
  unfold fp.decimal.
  change (10 ^ Z.of_nat 1)%Z with 10%Z.
  set (n := fmt.round_half_even _ _).
  destruct (digits_shape (n `div` 10)) as (c & s & -> & Hc & Hs).
  change (fmt.fixed_digits 1 (n `mod` 10) "")
    with (String (fmt.digit (n `mod` 10)) "").
  change ((String c s ++ "." ++ String (fmt.digit (n `mod` 10)) "")%string)
    with (String c (s +:+ String "." (String (fmt.digit (n `mod` 10)) ""))).
  unfold fmt.one_decimal. rewrite Hc.
  apply decimal_tail_digits; [exact Hs | apply is_digit_digit].
Qed.

(** [format(x, '+.1f')]: a sign, digits, a point and one digit when [x] is
    finite; one of three words when it is not *)
Lemma format_plus_1_shape (x : float) :
  if fp.is_finite x
  then fmt.signed_one_decimal (fp.format_f true 1 x) = true
  else fp.format_f true 1 x ∈ ["+inf"; "-inf"; "+nan"].
Proof.
  unfold fp.is_finite, fp.format_f.
  destruct (Prim2SF x) as [s|s| |s m e].
  - pose proof (decimal_1_shape 0 1) as Hd.
    destruct s; exact Hd.
  - destruct s; simpl; set_solver.
  - simpl. set_solver.
  - assert (fmt.one_decimal
              match e with
              | Z.neg k => fp.decimal 1 (Z.pos m) (2 ^ Z.pos k)
              | _ => fp.decimal 1 (Z.pos m * 2 ^ e) 1
              end = true) as Hd.
    { destruct e; apply decimal_1_shape. }
    destruct s; exact Hd.
Qed.

End float_facts.

(** ** Paths and plotting calls *)

Section path_facts.

Lemma has_slash_append (a b : string) :
  has_slash (a +:+ b) = has_slash a || has_slash b.
Proof.
  induction a as [|c a IH]; [done|].
  rewrite append_cons. simpl. rewrite IH. by rewrite orb_assoc.
Qed.

Lemma parent_join (d name : string) :
  has_slash name = false → parent (d +:+ "/" +:+ name) = d.
Proof.
  intros Hname. induction d as [|c d IH].
  - change ("" +:+ "/" +:+ name) with (String "/" name).
    simpl. by rewrite Hname.
  - rewrite append_cons. simpl. rewrite has_slash_append.
    change (has_slash ("/" +:+ name)) with true.
    rewrite orb_true_r. by rewrite IH.
Qed.

Lemma length_append (a b : string) :
  String.length (a +:+ b) = (String.length a + String.length b)%nat.
Proof.
  induction a as [|c a IH]; [done|].
  rewrite append_cons. simpl. by rewrite IH.
Qed.

Lemma join_ne (d name : string) : d +:+ "/" +:+ name ≠ d.
Proof.
  intros Heq. apply (f_equal String.length) in Heq.
  rewrite length_append in Heq.
  change (String.length ("/" +:+ name)) with (S (String.length name)) in Heq.
  lia.
Qed.

End path_facts.

Section plot_facts.

Lemma draws_ax_call (i : nat) (c : call) : draws (ax_call i c).
Proof. intros d fs o fig g h. unfold ax_call, set_figs. simpl. eauto. Qed.

Lemma draws_tight_layout : draws plt_tight_layout.
Proof. intros d fs o fig g h. unfold plt_tight_layout, set_figs. simpl. eauto. Qed.

Lemma draws_ret {A} (x : A) : draws (mret x).
Proof. intros d fs o fig g h. unfold mret, M_ret. eauto. Qed.

Lemma draws_lift {A} (x : A) : draws (lift (inr x)).
Proof. intros d fs o fig g h. unfold lift. eauto. Qed.

Lemma draws_bind {A B} (m : M A) (k : A → M B) :
  draws m → (∀ x, draws (k x)) → draws (m ≫= k).
Proof.
  intros Hm Hk d fs o fig g h.
  destruct (Hm d fs o fig g h) as (x & fig1 & Hrun).
  destruct (Hk x d fs o fig1 g h) as (y & fig2 & Hrun').
  exists y, fig2. unfold mbind, M_bind. by rewrite Hrun.
Qed.

Lemma draws_for {A} (xs : list A) (body : A → M unit) :
  (∀ x, draws (body x)) → draws (for_ xs body).
Proof.
  intros Hbody. induction xs as [|x xs IH]; simpl.
  - apply draws_ret.
  - apply draws_bind; [apply Hbody | intros _; apply IH].
Qed.

Lemma draws_ax_bar i x height width kwargs :
  draws (ax_bar i x height width kwargs).
Proof.
  unfold ax_bar. apply draws_bind; [apply draws_ax_call|].
  intros _. apply draws_ret.
Qed.

Lemma draws_autolabel ax bars : draws (autolabel ax bars).
Proof. apply draws_for. intros bar. apply draws_ax_call. Qed.

Lemma saves_bind {A} dirs path (m : M A) (k : A → M unit) :
  draws m → (∀ x, saves dirs path (k x)) → saves dirs path (m ≫= k).
Proof.
  intros Hm Hk fs o fig g h.
  destruct (Hm dirs fs o fig g h) as (x & fig1 & Hrun).
  destruct (Hk x fs o fig1 g h) as (fig2 & Hrun').
  exists fig2. unfold mbind, M_bind. by rewrite Hrun.
Qed.

Lemma saves_savefig dirs path :
  path ∉ dirs → parent path ∈ dirs →
  saves dirs path (plt_savefig path 300 "tight" ≫= λ _, plt_close).
Proof.
  intros Hp Hd fs o fig g h. exists fig.
  unfold mbind, M_bind, plt_savefig.
  rewrite check_writable_ok by done. reflexivity.
Qed.

Lemma os_makedirs_run (d : string) (w : world) :
  d ≠ "" → w_files w !! d = None →
  os_makedirs d w = (inr tt, set_dirs ({[d]} ∪ w_dirs w) w).
Proof.
  intros Hd Hf. unfold os_makedirs, is_file.
  rewrite bool_decide_eq_false_2 by done.
  rewrite bool_decide_eq_false_2; [done|].
  rewrite Hf. by intros [? ?].
Qed.

(** a function that makes the directory, opens a figure and then draws,
    saves and closes *)
Lemma plots_to_intro (save_dir name : string) (n : nat) (figsize : nat * nat)
    (body : M unit) (w : world) :
  save_dir ≠ "" →
  w_files w !! save_dir = None →
  (∀ name, save_dir +:+ "/" +:+ name ∉ w_dirs w) →
  has_slash name = false →
  saves ({[save_dir]} ∪ w_dirs w) (save_dir +:+ "/" +:+ name) body →
  plots_to (os_makedirs save_dir ≫= λ _, plt_subplots n figsize ≫= λ _, body)
    save_dir (save_dir +:+ "/" +:+ name) w.
Proof.
  intros Hd Hf Hsub Hname Hbody.
  destruct w as [d fs o g h]. simpl in *.
  destruct (Hbody fs o (Figure figsize (replicate n []) false) g h)
    as (fig & Hrun).
  exists fig. unfold mbind at 1, M_bind at 1.
  rewrite os_makedirs_run by done.
  unfold mbind, M_bind, plt_subplots, set_dirs, set_figs. simpl.
  exact Hrun.
Qed.

Lemma target_writable (save_dir name : string) (dirs : gset string) :
  (∀ name, save_dir +:+ "/" +:+ name ∉ dirs) →
  has_slash name = false →
  (save_dir +:+ "/" +:+ name ∉ {[save_dir]} ∪ dirs)
  ∧ (parent (save_dir +:+ "/" +:+ name) ∈ {[save_dir]} ∪ dirs).
Proof.
  intros Hsub Hname. split.
  - intros [Heq%elem_of_singleton|Hin]%elem_of_union.
    + by apply join_ne in Heq.
    + by apply Hsub in Hin.
  - rewrite parent_join by done. set_solver.
Qed.



Lemma smooth_nonempty (xs : list Qc) :
  xs ≠ [] → ∃ ys, smooth xs = inr ys.
Proof.
  intros Hxs. unfold smooth, np.convolve_valid.
  rewrite kernel_length.
  destruct (length xs <? window)%nat.
  - change (window =? 0)%nat with false. cbv iota.
    destruct (length xs =? 0)%nat eqn:Hz; [|eauto].
    apply Nat.eqb_eq in Hz. by destruct xs.
  - destruct (length xs =? 0)%nat eqn:Hz.
    + apply Nat.eqb_eq in Hz. by destruct xs.
    + rewrite kernel_length. change (window =? 0)%nat with false. eauto.
Qed.

Lemma dict_get_key (results : results_dict) (k : string) :
  k ∈ results.*1 → ∃ v, dict_get results k = inr v.
Proof.
  induction results as [|[k' v'] rest IH]; intros Hk.
  - exfalso. exact (not_elem_of_nil _ Hk).
  - simpl. case_bool_decide; [eauto|].
    apply IH. simpl in Hk.
    apply elem_of_cons in Hk as [Heq|Hin]; [congruence | exact Hin].
Qed.

Lemma comprehension_cons {A B} (f : A → exn + B) (x : A) (xs : list A) :
  comprehension f (x :: xs)
  = match f x with
    | inl e => inl e
    | inr y => match comprehension f xs with
               | inl e => inl e
               | inr ys => inr (y :: ys)
               end
    end.
Proof. reflexivity. Qed.

Lemma comprehension_keys {B} (results : results_dict) (f : env_results → B)
    (keys : list string) :
  keys ⊆ results.*1 →
  ∃ ys, comprehension (λ env, d ← dict_get results env; inr (f d)) keys = inr ys.
Proof.
  induction keys as [|k keys IH]; intros Hsub; [by eexists|].
  destruct (dict_get_key results k) as [v Hv]; [set_solver|].
  destruct IH as [ys Hys]; [set_solver|].
  exists (f v :: ys). rewrite comprehension_cons, Hys, Hv. reflexivity.
Qed.

Lemma appends_ax_call (c : call) : appends [c] (ax_call 0 c).
Proof. intros d fs o sz old t g h. reflexivity. Qed.

Lemma appends_bind (cs1 cs2 : list call) (m k : M unit) :
  appends cs1 m → appends cs2 k → appends (cs1 ++ cs2) (m ≫= λ _, k).
Proof.
  intros Hm Hk d fs o sz old t g h.
  unfold mbind, M_bind. rewrite Hm, Hk. by rewrite app_assoc.
Qed.

Lemma appends_lift {A} (cs : list call) (x : A) (k : A → M unit) :
  appends cs (k x) → appends cs (lift (inr x) ≫= k).
Proof. intros Hk d fs o sz old t g h. apply Hk. Qed.

Lemma saves_with_bind dirs path (cs1 cs2 : list call) (m k : M unit) :
  appends cs1 m → saves_with dirs path cs2 k →
  saves_with dirs path (cs1 ++ cs2) (m ≫= λ _, k).
Proof.
  intros Hm Hk fs o sz old t g h.
  unfold mbind, M_bind. rewrite Hm, Hk. by rewrite app_assoc.
Qed.

Lemma saves_with_end dirs path :
  path ∉ dirs → parent path ∈ dirs →
  saves_with dirs path []
    (plt_tight_layout ≫= λ _, plt_savefig path 300 "tight" ≫= λ _, plt_close).
Proof.
  intros Hp Hd fs o sz old t g h.
  unfold mbind, M_bind, plt_tight_layout, plt_savefig, set_figs.
  simpl w_figs. cbv iota beta.
  rewrite check_writable_ok by done.
  simpl. by rewrite app_nil_r.
Qed.

(** as [plots_to_intro], with the calls recorded on a single axes *)
Lemma plots_with_intro (save_dir name : string) (figsize : nat * nat)
    (cs : list call) (body : M unit) (w : world) :
  save_dir ≠ "" →
  w_files w !! save_dir = None →
  (∀ name, save_dir +:+ "/" +:+ name ∉ w_dirs w) →
  has_slash name = false →
  saves_with ({[save_dir]} ∪ w_dirs w) (save_dir +:+ "/" +:+ name) cs body →
  (os_makedirs save_dir ≫= λ _, plt_subplots 1 figsize ≫= λ _, body) w
  = (inr tt,
     World ({[save_dir]} ∪ w_dirs w)
       (<[save_dir +:+ "/" +:+ name := Png (Figure figsize [cs] true) 300 "tight"]>
          (w_files w))
       (w_stdout w) (w_figs w) (w_heap w)).
Proof.
  intros Hd Hf Hsub Hname Hbody.
  destruct w as [d fs o g h]. simpl in *.
  unfold mbind at 1, M_bind at 1.
  rewrite os_makedirs_run by done.
  unfold mbind, M_bind, plt_subplots, set_dirs, set_figs. simpl.
  apply (Hbody fs o figsize [] false g h).
Qed.



End plot_facts.

Ltac draws_step :=
  lazymatch goal with
  | |- draws (ax_call ?i ?c) => exact (draws_ax_call i c)
  | |- draws plt_tight_layout => exact draws_tight_layout
  | |- draws (lift (inr ?x)) => exact (draws_lift x)
  | |- draws (ax_bar ?i ?x ?h ?w ?kw) => exact (draws_ax_bar i x h w kw)
  | |- draws (autolabel ?ax ?bars) => exact (draws_autolabel ax bars)
  end.

Ltac saves_steps :=
  repeat lazymatch goal with
  | |- saves ?dirs ?path (plt_savefig _ _ _ ≫= _) =>
      apply (saves_savefig dirs path); apply target_writable; assumption
  | |- saves ?dirs ?path (?m ≫= ?k) =>
      apply (saves_bind dirs path m k); [ draws_step | intros ? ]
  end.


(** ** Sorting the items of a sweep mapping *)

#[global] Instance Z_PyTotalOrd : PyTotalOrd Z.
Proof.
  split; simpl.
  - intros a b Heq%Z.eqb_eq. subst b. by rewrite Z.ltb_irrefl.
  - intros a b Hlt%Z.ltb_lt. apply Z.ltb_ge. lia.
  - intros a b c Hab%Z.ltb_ge Hbc%Z.ltb_ge. apply Z.ltb_ge. lia.
Qed.

#[global] Instance Qc_PyTotalOrd : PyTotalOrd Qc.
Proof.
  split; simpl.
  - intros a b Heq%bool_decide_eq_true_1. subst b.
    split; apply bool_decide_eq_false_2, Qcle_not_lt, Qcle_refl.
  - intros a b Hlt%bool_decide_eq_true_1.
    apply bool_decide_eq_false_2, Qcle_not_lt, Qclt_le_weak, Hlt.
  - intros a b c Hab%bool_decide_eq_false_1 Hbc%bool_decide_eq_false_1.
    apply bool_decide_eq_false_2, Qcle_not_lt.
    eapply Qcle_trans; apply Qcnot_lt_le; eassumption.
Qed.

Section sorted_facts.
Context {K : Type} `{PyOrd K} `{!PyTotalOrd K}.

Lemma item_ltb_true (y x : K * list Qc) :
  item_ltb y x = true → key_le y.1 x.1.
Proof.
  unfold item_ltb, key_le. destruct (key_eqb y.1 x.1) eqn:Heq.
  - intros _. by apply key_eqb_not_ltb in Heq as [_ ?].
  - apply key_ltb_asym.
Qed.

Lemma item_ltb_false (y x : K * list Qc) :
  item_ltb y x = false → key_le x.1 y.1.
Proof.
  unfold item_ltb, key_le. destruct (key_eqb y.1 x.1) eqn:Heq.
  - intros _. by apply key_eqb_not_ltb in Heq as [? _].
  - done.
Qed.

Lemma insert_item_perm (x : K * list Qc) (l : list (K * list Qc)) :
  insert_item x l ≡ₚ x :: l.
Proof.
  induction l as [|y l IH]; simpl; [done|].
  destruct (item_ltb y x); [|done].
  rewrite IH. apply Permutation_swap.
Qed.

Lemma sorted_perm (items : list (K * list Qc)) : sorted items ≡ₚ items.
Proof.
  induction items as [|x items IH]; simpl; [done|].
  by rewrite insert_item_perm, IH.
Qed.


Lemma insert_item_sorted (x : K * list Qc) (l : list (K * list Qc)) :
  StronglySorted key_le l.*1 → StronglySorted key_le (insert_item x l).*1.
Proof.
  induction l as [|y l IH]; simpl; intros Hs.
  - repeat constructor.
  - apply StronglySorted_inv in Hs as [Hs Hy].
    destruct (item_ltb y x) eqn:Hyx; simpl.
    + constructor; [by apply IH|].
      rewrite insert_item_perm. simpl. constructor; [|done].
      by apply item_ltb_true.
    + apply item_ltb_false in Hyx.
      constructor; [by constructor|].
      constructor; [done|].
      eapply Forall_impl; [exact Hy|]. intros z Hz. simpl in Hz.
      unfold key_le in *. by eapply key_leb_trans.
Qed.

Lemma sorted_sorted (items : list (K * list Qc)) :
  StronglySorted key_le (sorted items).*1.
Proof.
  induction items as [|x items IH]; simpl; [constructor|].
  by apply insert_item_sorted.
Qed.

End sorted_facts.

Ltac appends_step :=
  lazymatch goal with
  | |- appends _ (ax_call 0 ?c) => exact (appends_ax_call c)
  end.

Ltac saves_with_steps :=
  repeat lazymatch goal with
  | |- saves_with ?dirs ?path _ (plt_tight_layout ≫= _) =>
      apply (saves_with_end dirs path); apply target_writable; assumption
  | |- saves_with ?dirs ?path _ (?m ≫= _) =>
      eapply (saves_with_bind dirs path _ _ m); [ appends_step | ]
  end.


(** C2, as the code has it.  With every DQN mean different from zero the
    table is written; the improvement of a row is computed in double
    precision as [(ddqn_mean - dqn_mean) / |dqn_mean| * 100] and printed
    with an explicit sign, with one decimal when it is finite and as
    [+inf], [-inf] or [+nan] when it is not; DQN mean 100.0 and DDQN mean
    120.0 give a row showing [+20.0\%]. *)
Theorem create_summary_table_improvement
    (results : fp.results_dict) (p : string) (w : world) :
  writable w p →
  Forall (λ item, zero_mean item = false) results →
  (∃ w', fp.create_summary_table results p w = (inr tt, w')
       ∧ w_files w' !! p
         = Some (Text (table_header +:+ concat_lines (table_row_of <$> results)
                         +:+ table_footer)))
  ∧ Forall (λ item,
        (∃ k, fp.improvement_of (fp.mean (fp.DQN item.2)) (fp.mean (fp.DDQN item.2))
              = inr (fp.Num k
                       ((fp.val (fp.mean (fp.DDQN item.2))
                         - fp.val (fp.mean (fp.DQN item.2)))
                        / PrimFloat.abs (fp.val (fp.mean (fp.DQN item.2)))
                        * 100)%float))
      ∧ (if fp.is_finite (improvement_value (fp.val (fp.mean (fp.DQN item.2)))
                            (fp.val (fp.mean (fp.DDQN item.2))))
         then fmt.signed_one_decimal
                (fp.format_f true 1
                   (improvement_value (fp.val (fp.mean (fp.DQN item.2)))
                      (fp.val (fp.mean (fp.DDQN item.2))))) = true
         else fp.format_f true 1
                (improvement_value (fp.val (fp.mean (fp.DQN item.2)))
                   (fp.val (fp.mean (fp.DDQN item.2))))
              ∈ ["+inf"; "-inf"; "+nan"]))
      results
  ∧ table_row_of ("CartPole-v1",
                  fp.EnvResults (fp.AlgoStats (pyfloat 100) (pyfloat 5) [])
                                (fp.AlgoStats (pyfloat 120) (pyfloat 4) []))
    = "CartPole-v1 & $100.0 \pm 5.0$ & $120.0 \pm 4.0$ & +20.0\% \\" +:+ nl.
Proof.
  intros Hw Hnz. split; [|split].
  - rewrite float_table_run by done.
    rewrite rows_until_raise_none by (by apply nonzero_does_not_raise). simpl.
    eexists. split; [done|]. simpl. apply lookup_insert_eq.
  - eapply Forall_impl; [exact (nonzero_does_not_raise _ Hnz)|].
    intros item Hitem. simpl in Hitem. split.
    + rewrite improvement_of_item, Hitem. eexists. reflexivity.
    + apply format_plus_1_shape.
  - vm_compute. reflexivity.
Qed.

(** C2 as stated fails when the improvement overflows: with a DQN mean of
    [2^-1000] and a DDQN mean of [2^30], both finite and not zero, the row
    reads [+inf\%], which has no decimal place. *)
Lemma create_summary_table_improvement_overflows :
  Forall (λ item, zero_mean item = false) overflowing_floats
  ∧ (fp.create_summary_table overflowing_floats "summary_table.txt" fresh_world).1
    = inr tt
  ∧ w_files
      (fp.create_summary_table overflowing_floats "summary_table.txt" fresh_world).2
      !! "summary_table.txt"
    = Some (Text (table_header
                  +:+ "Env & $0.0 \pm 1.0$ & $1073741824.0 \pm 1.0$ & +inf\% \\"
                  +:+ nl +:+ table_footer))
  ∧ fmt.signed_one_decimal "+inf" = false.
Proof.
  split; [repeat constructor|].
  repeat split; vm_compute; reflexivity.
Qed.



(** C7. With every DQN mean different from zero, the call changes one
    file only, the one at the save path, whose text is the fixed header,
    one row per environment (name, DQN mean and deviation, DDQN mean and
    deviation, improvement) and the fixed footer; it then prints the
    confirmation line.  The line is printed last: a call that raises has
    printed nothing.  For the mapping of the specification's example the
    text is spelled out. *)
Theorem create_summary_table_writes_table
    (results : fp.results_dict) (p : string) (w : world) :
  writable w p →
  Forall (λ item, zero_mean item = false) results →
  (∃ rows, rows = table_row_of <$> results
         ∧ length rows = length results
         ∧ fp.create_summary_table results p w
           = (inr tt,
              World (w_dirs w)
                (<[p := Text (table_header +:+ concat_lines rows +:+ table_footer)]>
                   (w_files w))
                (w_stdout w ++ ["LaTeX table saved to " +:+ p])
                (w_figs w) (w_heap w)))
  ∧ (∀ results' w' e,
        (fp.create_summary_table results' p w').1 = inl e →
        w_stdout (fp.create_summary_table results' p w').2 = w_stdout w')
  ∧ fp.create_summary_table cartpole_floats "summary_table.txt" fresh_world
    = (inr tt,
       World {[""]}
         {["summary_table.txt" :=
             Text ("\begin{table}[h]" +:+ nl
                   +:+ "\centering" +:+ nl
                   +:+ "\begin{tabular}{|l|c|c|c|}" +:+ nl
                   +:+ "\hline" +:+ nl
                   +:+ "\textbf{Environment} & \textbf{DQN} & \textbf{DDQN} & \textbf{Improvement} \\" +:+ nl
                   +:+ "\hline" +:+ nl
                   +:+ "CartPole-v1 & $100.0 \pm 5.0$ & $120.0 \pm 4.0$ & +20.0\% \\" +:+ nl
                   +:+ "\hline" +:+ nl
                   +:+ "\end{tabular}" +:+ nl
                   +:+ "\caption{Performance Comparison: DQN vs DDQN (Mean $\pm$ Std over 100 episodes)}" +:+ nl
                   +:+ "\label{tab:results}" +:+ nl
                   +:+ "\end{table}" +:+ nl)]}
         ["LaTeX table saved to summary_table.txt"]%list [] ∅).
Proof.
  intros Hw Hnz. split; [|split].
  - eexists. split; [reflexivity|]. split; [by rewrite length_fmap|].
    rewrite float_table_run by done.
    by rewrite rows_until_raise_none by (by apply nonzero_does_not_raise).
  - intros results' w' e.
    destruct (check_writable w' p) as [e'|[]] eqn:Hc.
    + by rewrite (float_table_refused _ _ _ _ Hc).
    + assert (writable w' p) as Hw'.
      { unfold check_writable, is_dir in Hc. unfold writable.
        repeat case_bool_decide; try done. }
      rewrite float_table_run by done.
      by destruct (rows_until_raise results').2.
  - rewrite float_table_run.
    + vm_compute. reflexivity.
    + unfold writable; simpl.
      split; [ intros Hin%elem_of_singleton; discriminate Hin
             | apply elem_of_singleton; reflexivity ].
Qed.

(** C9. On the empty mapping the call does not raise: the file holds the
    header immediately followed by the footer, no data row, and the
    confirmation line is printed. *)
Theorem create_summary_table_empty (p : string) (w : world) :
  writable w p →
  create_summary_table [] p w
  = (inr tt,
     World (w_dirs w)
       (<[p := Text (table_header +:+ table_footer)]> (w_files w))
       (w_stdout w ++ ["LaTeX table saved to " +:+ p])
       (w_figs w) (w_heap w)).
Proof.
  intros Hw. by rewrite create_summary_table_run.
Qed.

(** C10. Two calls with the same mapping and the same save path end the
    same way and leave the same text at the save path, whatever else the
    two worlds hold; and the objects the caller holds, the mapping among
    them, are as they were. *)
Theorem create_summary_table_deterministic
    (results : results_dict) (p : string) (w1 w2 : world) (r : nat) :
  writable w1 p →
  writable w2 p →
  w_heap w1 !! r = Some results →
  (create_summary_table results p w1).1 = (create_summary_table results p w2).1
  ∧ w_files (create_summary_table results p w1).2 !! p
    = w_files (create_summary_table results p w2).2 !! p
  ∧ w_heap (create_summary_table results p w1).2 = w_heap w1
  ∧ w_heap (create_summary_table results p w1).2 !! r = Some results.
Proof.
  intros Hw1 Hw2 Hr.
  rewrite !create_summary_table_run by done.
  destruct (rows_written results).2; simpl;
    by rewrite !lookup_insert_eq.
Qed.


(** C5. [load_results] answers the parsed document when a regular file
    with valid JSON is at the path, and [None] (here [JNull]), not an
    error, when nothing is at the path or the path is empty.  Existence is
    all it checks: text that is not JSON, and a directory at the path, make
    it raise. *)
Theorem load_results_spec
    (json_loads : string → option json) (results_file : string) (w : world) :
  (∀ s v, results_file ≠ "" →
          w_files w !! results_file = Some (Text s) →
          results_file ∉ w_dirs w →
          json_loads s = Some v →
          load_results json_loads results_file w = (inr v, w))
  ∧ (results_file = ""
     ∨ (w_files w !! results_file = None ∧ results_file ∉ w_dirs w) →
     load_results json_loads results_file w = (inr JNull, w))
  ∧ (∀ s, results_file ≠ "" →
          w_files w !! results_file = Some (Text s) →
          results_file ∉ w_dirs w →
          json_loads s = None →
          load_results json_loads results_file w = (inl JSONDecodeError, w))
  ∧ (results_file ≠ "" →
     results_file ∈ w_dirs w →
     load_results json_loads results_file w = (inl IsADirectoryError, w)).
Proof.
  unfold load_results, mbind, M_bind, os_path_exists, open_r, json_load,
    is_file, is_dir, raise, mret, M_ret.
  repeat split.
  - intros s v Hne Hf Hd Hj. rewrite Hf.
    rewrite !(bool_decide_eq_false_2 (results_file = "")) by done.
    rewrite bool_decide_eq_true_2 by eauto. simpl.
    rewrite bool_decide_eq_false_2 by done. rewrite Hf, Hj. reflexivity.
  - intros [-> | [Hf Hd]].
    + reflexivity.
    + rewrite Hf.
      rewrite (bool_decide_eq_false_2 (is_Some None)) by (by intros [? ?]).
      rewrite (bool_decide_eq_false_2 (results_file ∈ w_dirs w)) by done.
      simpl. by rewrite andb_false_r.
  - intros s Hne Hf Hd Hj. rewrite Hf.
    rewrite !(bool_decide_eq_false_2 (results_file = "")) by done.
    rewrite bool_decide_eq_true_2 by eauto. simpl.
    rewrite bool_decide_eq_false_2 by done. rewrite Hf, Hj. reflexivity.
  - intros Hne Hd.
    rewrite !(bool_decide_eq_false_2 (results_file = "")) by done.
    rewrite (bool_decide_eq_true_2 (results_file ∈ w_dirs w)) by done.
    rewrite orb_true_r. simpl.
    by rewrite (bool_decide_eq_true_2 (results_file ∈ w_dirs w)) by done.
Qed.

(** C4, as the code has it.  The loss-curve function plots the unsmoothed
    sequence alone exactly when [len(losses) <= 50]; when [len(losses) >
    50] it plots the raw sequence and the moving average, the latter over
    the positions [window - 1 = 49] to [len(losses) - 1], one per smoothed
    value. *)
Theorem plot_loss_curves_smoothing
    (losses : list Qc) (env_name algo_name save_dir : string) (w : world) :
  save_dir ≠ "" →
  w_files w !! save_dir = None →
  (∀ name, save_dir +:+ "/" +:+ name ∉ w_dirs w) →
  has_slash env_name = false →
  has_slash algo_name = false →
  ∃ fig,
    plot_loss_curves losses env_name algo_name save_dir w
    = (inr tt,
       World ({[save_dir]} ∪ w_dirs w)
         (<[save_dir +:+ "/" +:+ env_name +:+ "_" +:+ algo_name +:+ "_loss.png"
            := Png fig 300 "tight"]> (w_files w))
         (w_stdout w) (w_figs w) (w_heap w))
    ∧ ((length losses ≤ 50)%nat →
       calls_of "plot" fig
       = [Call "plot" [VArr losses]
            [("color", color 3); ("linewidth", VInt 2); ("label", VStr "Loss")]]%list)
    ∧ ((50 < length losses)%nat →
       ∃ smoothed,
         smooth losses = inr smoothed
         ∧ length smoothed = (length losses - 49)%nat
         ∧ calls_of "plot" fig
           = [Call "plot" [VArr losses]
                [("alpha", VNum (qd 3 10)); ("color", color 3);
                 ("label", VStr "Loss (raw)")];
              Call "plot" [VRange 49 (length losses); VArr smoothed]
                [("color", color 3); ("linewidth", VInt 2);
                 ("label", VStr "Loss (smoothed)")]]).
Proof.
  intros Hd Hf Hsub Henv Halgo.
  assert (has_slash (env_name +:+ "_" +:+ algo_name +:+ "_loss.png") = false)
    as Hname.
  { rewrite !has_slash_append, Henv, Halgo. reflexivity. }
  unfold plot_loss_curves.
  destruct (window <? length losses)%nat eqn:Hlen.
  - apply Nat.ltb_lt in Hlen. unfold window in Hlen.
    rewrite smooth_unfold by (unfold window; lia).
    eexists. split; [|split].
    + apply plots_with_intro; try done.
      eapply (saves_with_bind _ _ _ _ (lift _ ≫= _)).
      { apply appends_lift. eapply appends_bind; appends_step. }
      saves_with_steps.
    + intros Hle. lia.
    + intros _. eexists. split; [reflexivity|].
      split; [rewrite length_fmap, length_seq; unfold window; lia|].
      reflexivity.
  - apply Nat.ltb_ge in Hlen. unfold window in Hlen.
    eexists. split; [|split].
    + apply plots_with_intro; try done. saves_with_steps.
    + intros _. reflexivity.
    + intros Hgt. lia.
Qed.

(** C4 as stated fails at [len(losses) = 50]: the input is not shorter
    than the window, yet only the unsmoothed curve is plotted. *)
Lemma plot_loss_curves_at_window_unsmoothed :
  (50 ≤ length (replicate 50 (1 : Qc)))%nat
  ∧ saved_calls "plot"
      (plot_loss_curves (replicate 50 1) "Env" "DQN" "plots"
         (World ∅ ∅ [] [] ∅)).2
      "plots/Env_DQN_loss.png"
    = Some [Call "plot" [VArr (replicate 50 1)]
              [("color", color 3); ("linewidth", VInt 2); ("label", VStr "Loss")]]%list.
Proof.
  split; [by rewrite length_replicate|].
  vm_compute. reflexivity.
Qed.

Section statistics_facts.

Lemma mean_is_mean (xs : list Qc) : is_mean xs (np.mean xs).
Proof.
  destruct xs as [|x xs]; [done|].
  split; [done|].
  field. apply of_nat_nonzero. simpl. lia.
Qed.

Lemma std_is_population_std (np_sqrt : Qc → Qc) (xs : list Qc) :
  square_root_at np_sqrt (variance xs) →
  is_population_std xs (np_std np_sqrt xs).
Proof.
  destruct xs as [|x xs]; [done|].
  unfold variance, np_std.
  set (m := np.sum (x :: xs) / np.of_nat (length (x :: xs))).
  change (np.mean (x :: xs)) with (Some m). cbn [mbind option_bind].
  intros [Hpos Hsq]. exists m.
  split; [apply (mean_is_mean (x :: xs))|].
  split; [exact Hpos|].
  unfold squared_deviations in *. rewrite Hsq.
  field. apply of_nat_nonzero. simpl. lia.
Qed.

Lemma rational_sqrt_nonneg (x : Qc) : 0 ≤ rational_sqrt x.
Proof.
  unfold rational_sqrt, Qcle. cbn [this Q2Qc]. rewrite !Qred_correct.
  unfold Qle. cbn [Qnum Qden]. pose proof (Z.sqrt_nonneg (Qnum x)). lia.
Qed.

End statistics_facts.


(** * Sample runs *)

Example fixed_samples :
  fmt.fixed true 1 (qz 20) = "+20.0"
  ∧ fmt.fixed false 1 (qd 4853 10) = "485.3"
  ∧ fmt.fixed true 1 (qd (-25) 2) = "-12.5"
  ∧ fmt.fixed false 2 (qd 5 8) = "0.62".
Proof. repeat split; vm_compute; reflexivity. Qed.

Example square_sweep_statistics :
  (λ it, fmt.fixed_nan false 1 (np.mean it.2)) <$> sorted square_sweep
  = ["5.0"; "9.0"; "15.0"]
  ∧ (λ it, fmt.fixed_nan false 1 (np_std rational_sqrt it.2)) <$> sorted square_sweep
    = ["0.0"; "2.0"; "5.0"].
Proof. split; vm_compute; reflexivity. Qed.

Example format_f_samples :
  fp.format_f true 1 20 = "+20.0"
  ∧ fp.format_f true 1 (improvement_value 2000 2001) = "+0.1"
  ∧ fp.format_f false 1 (4853 / 10) = "485.3"
  ∧ fp.format_f false 1 (1 / 4) = "0.2"
  ∧ fp.format_f true 1 (-25 / 2) = "-12.5"
  ∧ fp.format_f false 1 (-0) = "-0.0"
  ∧ fp.format_f true 1 (1 / 0) = "+inf"
  ∧ fp.format_f true 1 (0 / 0) = "+nan".
Proof. repeat split; vm_compute; reflexivity. Qed.

Example square_sweep_deviations :
  Forall (λ it, is_mean it.2 (np.mean it.2)
                ∧ is_population_std it.2 (np_std rational_sqrt it.2))
    square_sweep.
Proof.
  unfold square_sweep.
  repeat (apply List.Forall_cons;
          [ split;
            [ apply mean_is_mean
            | apply std_is_population_std; split;
              [ apply rational_sqrt_nonneg
              | apply Qc_is_canon; vm_compute; reflexivity ] ]
          | ]).
  apply List.Forall_nil.
Qed.

Example sorted_batch_sweep_keys : (sorted batch_sweep).*1 = [16; 32; 64]%Z.
Proof. reflexivity. Qed.

Example load_results_missing_file :
  load_results (λ _, None) "results.json" fresh_world = (inr JNull, fresh_world).
Proof. vm_compute. reflexivity. Qed.

Example load_results_empty_path :
  load_results (λ _, None) "" fresh_world = (inr JNull, fresh_world).
Proof. vm_compute. reflexivity. Qed.

Example smooth_short_input_swaps :
  (ys ← smooth (replicate 10 1); inr (length ys)) = inr 41%nat.
Proof. vm_compute. reflexivity. Qed.

(** * The theorems at sample inputs *)

Ltac fresh_writable :=
  unfold writable; simpl;
  split; [ intros Hin%elem_of_singleton; discriminate Hin
         | apply elem_of_singleton; reflexivity ].

Ltac plots_dir_free :=
  first [ discriminate | reflexivity
        | simpl; intros name Hin%elem_of_singleton; discriminate Hin ].


(** the example table is written with its [+20.0\%] row *)
Lemma create_summary_table_improvement_witness :
  ∃ w', fp.create_summary_table cartpole_floats "summary_table.txt" fresh_world
        = (inr tt, w')
      ∧ w_files w' !! "summary_table.txt"
        = Some (Text (table_header +:+ concat_lines (table_row_of <$> cartpole_floats)
                        +:+ table_footer)).
Proof.
  apply (create_summary_table_improvement cartpole_floats "summary_table.txt"
           fresh_world).
  - fresh_writable.
  - constructor; [reflexivity | constructor].
Defined.


(** the example table, its one row, and the console line *)
Lemma create_summary_table_writes_table_witness :
  ∃ rows, rows = table_row_of <$> cartpole_floats
        ∧ length rows = length cartpole_floats
        ∧ fp.create_summary_table cartpole_floats "summary_table.txt" fresh_world
          = (inr tt,
             World (w_dirs fresh_world)
               (<["summary_table.txt"
                  := Text (table_header +:+ concat_lines rows +:+ table_footer)]>
                  (w_files fresh_world))
               (w_stdout fresh_world ++ ["LaTeX table saved to summary_table.txt"])
               (w_figs fresh_world) (w_heap fresh_world)).
Proof.
  apply (create_summary_table_writes_table cartpole_floats "summary_table.txt"
           fresh_world).
  - fresh_writable.
  - constructor; [reflexivity | constructor].
Defined.

(** the empty table in a fresh world *)
Lemma create_summary_table_empty_witness :
  create_summary_table [] "summary_table.txt" fresh_world
  = (inr tt,
     World (w_dirs fresh_world)
       (<["summary_table.txt" := Text (table_header +:+ table_footer)]>
          (w_files fresh_world))
       (w_stdout fresh_world ++ ["LaTeX table saved to summary_table.txt"])
       (w_figs fresh_world) (w_heap fresh_world)).
Proof.
  apply (create_summary_table_empty "summary_table.txt" fresh_world).
  fresh_writable.
Defined.

(** a world with an old table and a fresh one end with the same table *)
Lemma create_summary_table_deterministic_witness :
  (create_summary_table cartpole_results "summary_table.txt" used_world).1
  = (create_summary_table cartpole_results "summary_table.txt" fresh_world).1
  ∧ w_files (create_summary_table cartpole_results "summary_table.txt" used_world).2
      !! "summary_table.txt"
    = w_files (create_summary_table cartpole_results "summary_table.txt" fresh_world).2
        !! "summary_table.txt"
  ∧ w_heap (create_summary_table cartpole_results "summary_table.txt" used_world).2
    = w_heap used_world
  ∧ w_heap (create_summary_table cartpole_results "summary_table.txt" used_world).2
      !! 0%nat
    = Some cartpole_results.
Proof.
  apply (create_summary_table_deterministic cartpole_results "summary_table.txt"
           used_world fresh_world 0).
  - fresh_writable.
  - fresh_writable.
  - reflexivity.
Defined.


(** 51 losses: the raw curve and one smoothed value at position 49 *)
Lemma plot_loss_curves_smoothing_witness :
  ∃ fig,
    plot_loss_curves (replicate 51 1) "Env" "DQN" "plots" fresh_world
    = (inr tt,
       World ({["plots"]} ∪ w_dirs fresh_world)
         (<["plots/Env_DQN_loss.png" := Png fig 300 "tight"]> (w_files fresh_world))
         (w_stdout fresh_world) (w_figs fresh_world) (w_heap fresh_world))
    ∧ ((length (replicate 51 (1 : Qc)) ≤ 50)%nat →
       calls_of "plot" fig
       = [Call "plot" [VArr (replicate 51 1)]
            [("color", color 3); ("linewidth", VInt 2); ("label", VStr "Loss")]]%list)
    ∧ ((50 < length (replicate 51 (1 : Qc)))%nat →
       ∃ smoothed,
         smooth (replicate 51 1) = inr smoothed
         ∧ length smoothed = (length (replicate 51 (1 : Qc)) - 49)%nat
         ∧ calls_of "plot" fig
           = [Call "plot" [VArr (replicate 51 1)]
                [("alpha", VNum (qd 3 10)); ("color", color 3);
                 ("label", VStr "Loss (raw)")];
              Call "plot" [VRange 49 (length (replicate 51 (1 : Qc))); VArr smoothed]
                [("color", color 3); ("linewidth", VInt 2);
                 ("label", VStr "Loss (smoothed)")]]).
Proof.
  apply (plot_loss_curves_smoothing (replicate 51 1) "Env" "DQN" "plots" fresh_world);
    plots_dir_free.
Defined.


(** * Further properties of the module *)

(** ** The unguarded smoothing of [plot_training_comparison] *)


(** ** Failures that leave something behind *)

Section failure_facts.

Lemma smooth_nil : smooth [] = inl ValueError.
Proof. reflexivity. Qed.

End failure_facts.

(** X3. [plot_training_comparison] has no guard on its smoothing: with an
    empty reward sequence it raises the [ValueError] of [np.convolve]
    after the directory has been made and the figure opened, so the
    directory exists, the figure stays open, and no image is written. *)
Theorem plot_training_comparison_empty
    (dqn_rewards ddqn_rewards : list Qc) (env_name save_dir : string)
    (w : world) :
  save_dir ≠ "" →
  w_files w !! save_dir = None →
  dqn_rewards = [] ∨ ddqn_rewards = [] →
  plot_training_comparison dqn_rewards ddqn_rewards env_name save_dir w
  = (inl ValueError,
     World ({[save_dir]} ∪ w_dirs w) (w_files w) (w_stdout w)
       (Figure (12, 6)%nat [[]] false :: w_figs w) (w_heap w)).
Proof.
  intros Hd Hf Hempty. destruct w as [d fs o g h]. simpl in *.
  unfold plot_training_comparison.
  unfold mbind at 1, M_bind at 1. rewrite os_makedirs_run by done.
  unfold mbind at 1, M_bind at 1, plt_subplots, set_dirs, set_figs. simpl.
  destruct Hempty as [-> | ->].
  - unfold mbind at 1, M_bind at 1, lift. by rewrite smooth_nil.
  - unfold mbind at 1, M_bind at 1, lift.
    destruct (smooth dqn_rewards) as [e|ys] eqn:Hs.
    + destruct dqn_rewards as [|x xs]; [by rewrite smooth_nil in Hs; simplify_eq|].
      destruct (smooth_nonempty (x :: xs)) as [ys Hys]; [done|]. congruence.
    + unfold mbind at 1, M_bind at 1. by rewrite smooth_nil.
Qed.

(** X4. [load_results] only reads: whatever it answers, the world is as it
    was; and it raises only when something exists at the path. *)
Theorem load_results_read_only
    (json_loads : string → option json) (results_file : string) (w : world) :
  (load_results json_loads results_file w).2 = w
  ∧ (∀ e, (load_results json_loads results_file w).1 = inl e →
          is_file w results_file || is_dir w results_file = true).
Proof.
  unfold load_results, mbind, M_bind, os_path_exists, open_r, json_load,
    raise, mret, M_ret.
  destruct (bool_decide (results_file = "")); simpl.
  { split; [done|]. intros e He. discriminate He. }
  destruct (is_file w results_file || is_dir w results_file) eqn:Hex.
  - split; [|done].
    destruct (is_dir w results_file); [done|].
    destruct (w_files w !! results_file) as [[s|fig dpi bb]|]; [|done..].
    by destruct (json_loads s).
  - split; [done|]. intros e He. discriminate He.
Qed.

(** X5. When the division of line 202 raises, the table is left broken:
    the file at the save path holds the header and the rows of the
    environments before the one with two built-in means and a zero DQN
    mean, without footer; whatever the file held before is gone and
    nothing is printed. *)
Theorem create_summary_table_partial
    (pre post : fp.results_dict) (item : string * fp.env_results) (p : string)
    (w : world) :
  writable w p →
  Forall (λ it, division_raises it = false) pre →
  builtin_means item = true →
  zero_mean item = true →
  fp.create_summary_table (pre ++ item :: post) p w
  = (inl ZeroDivisionError,
     World (w_dirs w)
       (<[p := Text (table_header +:+ concat_lines (table_row_of <$> pre))]>
          (w_files w))
       (w_stdout w) (w_figs w) (w_heap w)).
Proof.
  intros Hw Hpre Hb Hz.
  rewrite float_table_run by done.
  rewrite rows_until_raise_first; [done|done|].
  unfold division_raises. by rewrite Hb, Hz.
Qed.

(** ** The order of insertion of a sweep mapping *)

Section order_facts.
Context {K : Type} `{PyOrd K} `{!PyTotalOrd K}.

Lemma strongly_sorted_keys (l : list (K * list Qc)) :
  StronglySorted key_le l.*1 → StronglySorted (λ a b, key_le a.1 b.1) l.
Proof.
  induction l as [|x l IH]; intros Hs; [constructor|].
  rewrite fmap_cons in Hs. apply StronglySorted_inv in Hs as [Hs Hx].
  constructor; [by apply IH|].
  rewrite Forall_fmap in Hx. exact Hx.
Qed.

Lemma sorted_permutation_eq (l1 l2 : list (K * list Qc)) :
  l1 ≡ₚ l2 →
  (∀ x y, x ∈ l1 → y ∈ l1 →
          key_ltb x.1 y.1 = false → key_ltb y.1 x.1 = false → x = y) →
  sorted l1 = sorted l2.
Proof.
  intros Hperm Hdistinct.
  apply (StronglySorted_unique_strong (λ a b, key_le a.1 b.1)).
  - intros x y Hx Hy Hxy Hyx. unfold key_le in *.
    rewrite sorted_perm in Hx. rewrite sorted_perm, <- Hperm in Hy.
    by apply Hdistinct.
  - apply strongly_sorted_keys, sorted_sorted.
  - apply strongly_sorted_keys, sorted_sorted.
  - by rewrite !sorted_perm.
Qed.

End order_facts.

(** X6. The bar chart of a sweep does not depend on the order in which the
    parameter values were inserted: for mappings with the same items, one
    item per key, [sorted] gives the same list, and
    [plot_hyperparameter_comparison] does the same in every world. *)
Theorem hyperparameter_order_independent
    (np_sqrt : Qc → Qc) {K : Type} `{PyOrd K} `{!PyTotalOrd K}
    (str : K → string) (sweep1 sweep2 : list (K * list Qc))
    (param_name env_name save_dir : string) :
  sweep1 ≡ₚ sweep2 →
  (∀ x y, x ∈ sweep1 → y ∈ sweep1 →
          key_ltb x.1 y.1 = false → key_ltb y.1 x.1 = false → x = y) →
  sorted sweep1 = sorted sweep2
  ∧ ∀ w, plot_hyperparameter_comparison np_sqrt str sweep1 param_name env_name
           save_dir w
         = plot_hyperparameter_comparison np_sqrt str sweep2 param_name env_name
             save_dir w.
Proof.
  intros Hperm Hdistinct.
  assert (sorted sweep1 = sorted sweep2) as Heq
    by by apply sorted_permutation_eq.
  split; [exact Heq|].
  intros w. unfold plot_hyperparameter_comparison. by rewrite Heq.
Qed.

(** ** Plotting twice *)

(** A computation that draws on the current figure, the figure drawn and
    the answer depending on nothing but the figure it starts from. *)
Definition paints {A} (m : M A) : Type :=
  { F : figure → A * figure
  | ∀ d fs o fig g h,
      m (World d fs o (fig :: g) h)
      = (inr (F fig).1, World d fs o ((F fig).2 :: g) h) }.

(** A computation that draws, saves the figure to [path] and closes it,
    the image depending on nothing but the figure it starts from. *)
Definition finishes (dirs : gset string) (path : string) (m : M unit) : Type :=
  { F : figure → figure
  | ∀ fs o fig g h,
      m (World dirs fs o (fig :: g) h)
      = (inr tt, World dirs (<[path := Png (F fig) 300 "tight"]> fs) o g h) }.

(** Running [m] once more changes nothing. *)
Definition runs_twice (m : M unit) (w : world) : Prop :=
  ∃ w1, m w = (inr tt, w1) ∧ m w1 = (inr tt, w1).

Section twice_facts.

Lemma paints_ax_call (i : nat) (c : call) : paints (ax_call i c).
Proof.
  exists (λ fig,
    (tt, Figure (f_figsize fig)
           match f_axes fig !! i with
           | Some cs => <[i := cs ++ [c]]> (f_axes fig)
           | None => f_axes fig
           end (f_tight_layout fig))).
  intros d fs o fig g h. reflexivity.
Qed.

Lemma paints_tight_layout : paints plt_tight_layout.
Proof.
  exists (λ fig, (tt, Figure (f_figsize fig) (f_axes fig) true)).
  intros d fs o fig g h. reflexivity.
Qed.

Lemma paints_ret {A} (x : A) : paints (mret x).
Proof. exists (λ fig, (x, fig)). intros d fs o fig g h. reflexivity. Qed.

Lemma paints_lift {A} (x : A) : paints (lift (inr x)).
Proof. exists (λ fig, (x, fig)). intros d fs o fig g h. reflexivity. Qed.

Lemma paints_bind {A B} (m : M A) (k : A → M B) :
  paints m → (∀ x, paints (k x)) → paints (m ≫= k).
Proof.
  intros [F HF] Hk.
  exists (λ fig, proj1_sig (Hk (F fig).1) (F fig).2).
  intros d fs o fig g h. unfold mbind, M_bind. rewrite HF.
  apply (proj2_sig (Hk (F fig).1)).
Qed.

Lemma paints_for {A} (xs : list A) (body : A → M unit) :
  (∀ x, paints (body x)) → paints (for_ xs body).
Proof.
  intros Hbody. induction xs as [|x xs IH]; simpl.
  - apply paints_ret.
  - apply paints_bind; [apply Hbody | intros _; apply IH].
Qed.

Lemma paints_ax_bar i x height width kwargs :
  paints (ax_bar i x height width kwargs).
Proof.
  unfold ax_bar. apply paints_bind; [apply paints_ax_call|].
  intros _. apply paints_ret.
Qed.

Lemma paints_autolabel ax bars : paints (autolabel ax bars).
Proof. apply paints_for. intros bar. apply paints_ax_call. Qed.

Lemma finishes_bind {A} dirs path (m : M A) (k : A → M unit) :
  paints m → (∀ x, finishes dirs path (k x)) → finishes dirs path (m ≫= k).
Proof.
  intros [F HF] Hk.
  exists (λ fig, proj1_sig (Hk (F fig).1) (F fig).2).
  intros fs o fig g h. unfold mbind, M_bind. rewrite HF.
  apply (proj2_sig (Hk (F fig).1)).
Qed.

Lemma finishes_savefig dirs path :
  path ∉ dirs → parent path ∈ dirs →
  finishes dirs path (plt_savefig path 300 "tight" ≫= λ _, plt_close).
Proof.
  intros Hp Hd. exists (λ fig, fig). intros fs o fig g h.
  unfold mbind, M_bind, plt_savefig.
  rewrite check_writable_ok by done. reflexivity.
Qed.

Lemma runs_twice_intro (save_dir name : string) (n : nat) (figsize : nat * nat)
    (body : M unit) (w : world) :
  save_dir ≠ "" →
  w_files w !! save_dir = None →
  has_slash name = false →
  finishes ({[save_dir]} ∪ w_dirs w) (save_dir +:+ "/" +:+ name) body →
  runs_twice (os_makedirs save_dir ≫= λ _, plt_subplots n figsize ≫= λ _, body) w.
Proof.
  intros Hd Hf Hname [F HF].
  destruct w as [d fs o g h]. simpl in *.
  set (fig0 := Figure figsize (replicate n []) false).
  exists (World ({[save_dir]} ∪ d)
            (<[save_dir +:+ "/" +:+ name := Png (F fig0) 300 "tight"]> fs) o g h).
  split.
  - unfold mbind at 1, M_bind at 1. rewrite os_makedirs_run by done.
    unfold mbind, M_bind, plt_subplots, set_dirs, set_figs. simpl.
    apply HF.
  - unfold mbind at 1, M_bind at 1. rewrite os_makedirs_run; [|done|].
    + unfold mbind, M_bind, plt_subplots, set_dirs, set_figs. simpl.
      assert ({[save_dir]} ∪ ({[save_dir]} ∪ d) = {[save_dir]} ∪ d) as ->
        by (by rewrite (assoc_L (∪)), union_idemp_L).
      fold fig0. rewrite HF. by rewrite insert_insert_eq.
    + simpl. rewrite lookup_insert_ne; [done|]. apply join_ne.
Qed.

Lemma runs_twice_lift {A} (save_dir : string) (x : A) (k : A → M unit)
    (w : world) :
  runs_twice (os_makedirs save_dir ≫= λ _, k x) w →
  runs_twice (os_makedirs save_dir ≫= λ _, lift (inr x) ≫= k) w.
Proof.
  assert (∀ w', (os_makedirs save_dir ≫= λ _, lift (inr x) ≫= k) w'
                = (os_makedirs save_dir ≫= λ _, k x) w') as Heq.
  { intros w'. unfold mbind, M_bind, lift.
    by destruct (os_makedirs save_dir w') as [[e|[]] w'']. }
  intros (w1 & H1 & H2). exists w1. by rewrite !Heq.
Qed.

End twice_facts.

Ltac paints_step :=
  lazymatch goal with
  | |- paints (ax_call ?i ?c) => exact (paints_ax_call i c)
  | |- paints plt_tight_layout => exact paints_tight_layout
  | |- paints (lift (inr ?x)) => exact (paints_lift x)
  | |- paints (ax_bar ?i ?x ?h ?w ?kw) => exact (paints_ax_bar i x h w kw)
  | |- paints (autolabel ?ax ?bars) => exact (paints_autolabel ax bars)
  end.

Ltac finishes_steps :=
  repeat lazymatch goal with
  | |- finishes ?dirs ?path (plt_savefig _ _ _ ≫= _) =>
      apply (finishes_savefig dirs path); apply target_writable; assumption
  | |- finishes ?dirs ?path (?m ≫= ?k) =>
      apply (finishes_bind dirs path m k); [ paints_step | intros ? ]
  end.

(** X7. Calling a plotting function a second time with the same arguments
    changes nothing: the directory is there already, the same image is
    written over the first, and no figure is left open.  This holds for
    each of the five plotting functions on the inputs on which the first
    call succeeds. *)
Theorem plots_twice_same_world
    (np_sqrt : Qc → Qc) {K : Type} `{PyOrd K} (str : K → string)
    (dqn_rewards ddqn_rewards eval_rewards losses : list Qc)
    (sweep : list (K * list Qc)) (results : results_dict)
    (env_name algo_name param_name save_dir : string) (w : world) :
  save_dir ≠ "" →
  w_files w !! save_dir = None →
  (∀ name, save_dir +:+ "/" +:+ name ∉ w_dirs w) →
  has_slash env_name = false →
  has_slash algo_name = false →
  has_slash param_name = false →
  dqn_rewards ≠ [] →
  ddqn_rewards ≠ [] →
  runs_twice (plot_training_comparison dqn_rewards ddqn_rewards env_name save_dir) w
  ∧ runs_twice
      (plot_evaluation_stability np_sqrt eval_rewards env_name algo_name save_dir) w
  ∧ runs_twice
      (plot_hyperparameter_comparison np_sqrt str sweep param_name env_name save_dir) w
  ∧ runs_twice (plot_all_environments_comparison results save_dir) w
  ∧ runs_twice (plot_loss_curves losses env_name algo_name save_dir) w.
Proof.
  intros Hd Hf Hsub Henv Halgo Hparam Hdqn Hddqn.
  assert (∀ a b, has_slash a = false → has_slash b = false →
                 has_slash (a +:+ b) = false) as Happ.
  { intros a b Ha Hb. by rewrite has_slash_append, Ha, Hb. }
  repeat split.
  - destruct (smooth_nonempty _ Hdqn) as [ys1 Hs1].
    destruct (smooth_nonempty _ Hddqn) as [ys2 Hs2].
    unfold plot_training_comparison. rewrite Hs1, Hs2.
    assert (has_slash (env_name +:+ "_training_comparison.png") = false) as Hname
      by (apply Happ; done).
    apply (runs_twice_intro save_dir (env_name +:+ "_training_comparison.png"));
      try done.
    finishes_steps.
  - unfold plot_evaluation_stability.
    assert (has_slash (env_name +:+ "_" +:+ algo_name +:+ "_stability.png") = false)
      as Hname by (repeat apply Happ; done).
    apply (runs_twice_intro save_dir
             (env_name +:+ "_" +:+ algo_name +:+ "_stability.png")); try done.
    finishes_steps.
  - unfold plot_hyperparameter_comparison.
    assert (has_slash (env_name +:+ "_" +:+ param_name +:+ "_comparison.png") = false)
      as Hname by (repeat apply Happ; done).
    apply (runs_twice_intro save_dir
             (env_name +:+ "_" +:+ param_name +:+ "_comparison.png")); try done.
    finishes_steps.
  - unfold plot_all_environments_comparison.
    destruct (comprehension_keys results (λ d, mean (DQN d)) results.*1) as [m1 H1]; [done|].
    destruct (comprehension_keys results (λ d, std (DQN d)) results.*1) as [s1 H2]; [done|].
    destruct (comprehension_keys results (λ d, mean (DDQN d)) results.*1) as [m2 H3]; [done|].
    destruct (comprehension_keys results (λ d, std (DDQN d)) results.*1) as [s2 H4]; [done|].
    rewrite H1, H2, H3, H4.
    do 4 apply runs_twice_lift.
    assert (has_slash "all_environments_comparison.png" = false) as Hname by done.
    apply (runs_twice_intro save_dir "all_environments_comparison.png"); try done.
    finishes_steps.
  - unfold plot_loss_curves.
    assert (has_slash (env_name +:+ "_" +:+ algo_name +:+ "_loss.png") = false)
      as Hname by (repeat apply Happ; done).
    destruct (window <? length losses)%nat eqn:Hlen.
    + destruct (smooth_nonempty losses) as [ys Hys].
      { apply Nat.ltb_lt in Hlen. intros ->. simpl in Hlen. lia. }
      rewrite Hys.
      apply (runs_twice_intro save_dir
               (env_name +:+ "_" +:+ algo_name +:+ "_loss.png")); try done.
      apply finishes_bind.
      { apply paints_bind; [apply paints_lift|]. intros smoothed.
        apply paints_bind; [apply paints_ax_call|]. intros _. apply paints_ax_call. }
      intros _. finishes_steps.
    + apply (runs_twice_intro save_dir
               (env_name +:+ "_" +:+ algo_name +:+ "_loss.png")); try done.
      finishes_steps.
Qed.

(** ** The value labels of the cross-environment chart *)

(** the label [autolabel] puts on a bar *)
Definition bar_label (bar : rectangle) : call :=
  Call "annotate" [VStr (fmt.fixed false 1 (get_height bar))]
    [("xy", VPair (VNum (get_x bar + get_width bar / qz 2))
                  (VNum (get_height bar)));
     ("xytext", VPair (VInt 0) (VInt 3));
     ("textcoords", VStr "offset points");
     ("ha", VStr "center"); ("va", VStr "bottom"); ("fontsize", VInt 10)].

(** a label with the text of [height] to one decimal, anchored at the
    point [(centre, height)] *)
Definition value_label (centre height : Qc) : call :=
  Call "annotate" [VStr (fmt.fixed false 1 height)]
    [("xy", VPair (VNum centre) (VNum height));
     ("xytext", VPair (VInt 0) (VInt 3));
     ("textcoords", VStr "offset points");
     ("ha", VStr "center"); ("va", VStr "bottom"); ("fontsize", VInt 10)].

(** A computation that records the calls [cs] on the only axes of the
    current figure and answers [x]. *)
Definition appends_val {A} (cs : list call) (x : A) (m : M A) : Prop :=
  ∀ d fs o sz old t g h,
    m (World d fs o (Figure sz [old] t :: g) h)
    = (inr x, World d fs o (Figure sz [old ++ cs] t :: g) h).

Section label_facts.

Lemma appends_val_ax_bar (x height : list Qc) (width : Qc)
    (kwargs : list (string * value)) :
  appends_val [Call "bar" [VArr x; VArr height; VNum width] kwargs]
    (zip_with (λ c h, Rectangle (c - width / qz 2) width h) x height)
    (ax_bar 0 x height width kwargs).
Proof. intros d fs o sz old t g h. reflexivity. Qed.

Lemma saves_with_bind_val {A} dirs path (cs1 cs2 : list call) (x : A)
    (m : M A) (k : A → M unit) :
  appends_val cs1 x m → saves_with dirs path cs2 (k x) →
  saves_with dirs path (cs1 ++ cs2) (m ≫= k).
Proof.
  intros Hm Hk fs o sz old t g h.
  unfold mbind, M_bind. rewrite Hm, Hk. by rewrite app_assoc.
Qed.

Lemma appends_autolabel (bars : list rectangle) :
  appends (bar_label <$> bars) (autolabel 0 bars).
Proof.
  unfold autolabel. induction bars as [|bar bars IH].
  - intros d fs o sz old t g h. simpl. by rewrite app_nil_r.
  - change (bar_label <$> bar :: bars)
      with ([bar_label bar] ++ (bar_label <$> bars)).
    apply appends_bind; [apply appends_ax_call | exact IH].
Qed.

Lemma bar_label_centre (width : Qc) (xs hs : list Qc) :
  bar_label <$> zip_with (λ c h, Rectangle (c - width / qz 2) width h) xs hs
  = zip_with value_label xs hs.
Proof.
  revert hs. induction xs as [|x xs IH]; intros [|h hs]; simpl; try done.
  rewrite IH. f_equal. unfold bar_label, value_label. simpl.
  do 5 f_equal. unfold Qcdiv. ring.
Qed.

Lemma calls_of_cons (m : string) sz (c : call) (cs : list call) t :
  calls_of m (Figure sz [c :: cs] t)
  = if String.eqb (c_method c) m then c :: calls_of m (Figure sz [cs] t)
    else calls_of m (Figure sz [cs] t).
Proof. reflexivity. Qed.

Lemma calls_of_app (m : string) sz (xs ys : list call) t :
  calls_of m (Figure sz [xs ++ ys] t)
  = calls_of m (Figure sz [xs] t) ++ calls_of m (Figure sz [ys] t).
Proof.
  unfold calls_of. simpl. rewrite !app_nil_r. apply List.filter_app.
Qed.

Lemma calls_of_labels sz (xs hs : list Qc) t :
  calls_of "annotate" (Figure sz [zip_with value_label xs hs] t)
  = zip_with value_label xs hs.
Proof.
  revert hs. induction xs as [|x xs IH]; intros [|h hs]; try done.
  change (zip_with value_label (x :: xs) (h :: hs))
    with (value_label x h :: zip_with value_label xs hs).
  rewrite calls_of_cons. simpl c_method. by rewrite IH.
Qed.

Lemma calls_of_labels_other (m : string) sz (xs hs : list Qc) t :
  String.eqb "annotate" m = false →
  calls_of m (Figure sz [zip_with value_label xs hs] t) = [].
Proof.
  intros Hm. revert hs. induction xs as [|x xs IH]; intros [|h hs]; try done.
  change (zip_with value_label (x :: xs) (h :: hs))
    with (value_label x h :: zip_with value_label xs hs).
  rewrite calls_of_cons. simpl c_method. by rewrite Hm, IH.
Qed.

Lemma dict_get_elem (results : results_dict) (k : string) (v : env_results) :
  NoDup results.*1 → (k, v) ∈ results → dict_get results k = inr v.
Proof.
  induction results as [|[k' v'] rest IH]; intros Hnd Hin.
  - destruct (not_elem_of_nil _ Hin).
  - rewrite fmap_cons in Hnd. apply NoDup_cons in Hnd as [Hk' Hnd].
    simpl. apply elem_of_cons in Hin as [Heq|Hin].
    + injection Heq as -> ->. by rewrite bool_decide_eq_true_2.
    + rewrite bool_decide_eq_false_2; [by apply IH|].
      intros ->. apply Hk'.
      by apply (list_elem_of_fmap_2 fst rest (k, v)).
Qed.

Lemma comprehension_values {B} (results : results_dict) (f : env_results → B) :
  NoDup results.*1 →
  comprehension (λ env, d ← dict_get results env; inr (f d)) results.*1
  = inr ((λ it, f it.2) <$> results).
Proof.
  intros Hnd.
  assert (∀ l : results_dict, l ⊆ results →
            comprehension (λ env, d ← dict_get results env; inr (f d)) l.*1
            = inr ((λ it, f it.2) <$> l)) as Hsub.
  { induction l as [|[k v] l IH]; intros Hl; [done|].
    rewrite fmap_cons, comprehension_cons. cbn [fst]. cbv beta.
    rewrite (dict_get_elem results k v) by (done || set_solver).
    rewrite IH by set_solver. reflexivity. }
  by apply Hsub.
Qed.

Lemma makedirs_lift {A} (save_dir : string) (x : A) (k : A → M unit)
    (w : world) :
  (os_makedirs save_dir ≫= λ _, lift (inr x) ≫= k) w
  = (os_makedirs save_dir ≫= λ _, k x) w.
Proof.
  unfold mbind, M_bind, lift.
  by destruct (os_makedirs save_dir w) as [[e|[]] w''].
Qed.

End label_facts.

Ltac saves_with_val_steps :=
  repeat lazymatch goal with
  | |- saves_with ?dirs ?path _ (plt_tight_layout ≫= _) =>
      apply (saves_with_end dirs path); apply target_writable; assumption
  | |- saves_with ?dirs ?path _ (ax_bar 0 ?x ?h ?w ?kw ≫= ?k) =>
      eapply (saves_with_bind_val dirs path _ _ _ (ax_bar 0 x h w kw) k);
      [ exact (appends_val_ax_bar x h w kw) | cbv beta ]
  | |- saves_with ?dirs ?path _ (autolabel 0 ?bars ≫= _) =>
      eapply (saves_with_bind dirs path _ _ (autolabel 0 bars));
      [ exact (appends_autolabel bars) | ]
  | |- saves_with ?dirs ?path _ (?m ≫= _) =>
      eapply (saves_with_bind dirs path _ _ m); [ appends_step | ]
  end.

(** X8. In the cross-environment chart of a mapping with one entry per
    environment, the DQN bars stand 0.175 left and the DDQN bars 0.175
    right of the environments' positions 0, 1, 2, ..., their heights are
    the means in the mapping's order, and [autolabel] labels every bar
    with its height to one decimal, anchored at the bar's centre and top:
    first the DQN bars, then the DDQN bars. *)
Theorem all_environments_bars_labelled
    (results : results_dict) (save_dir : string) (w : world) :
  save_dir ≠ "" →
  w_files w !! save_dir = None →
  (∀ name, save_dir +:+ "/" +:+ name ∉ w_dirs w) →
  NoDup results.*1 →
  ∃ fig,
    plot_all_environments_comparison results save_dir w
    = (inr tt,
       World ({[save_dir]} ∪ w_dirs w)
         (<[save_dir +:+ "/all_environments_comparison.png"
            := Png fig 300 "tight"]> (w_files w))
         (w_stdout w) (w_figs w) (w_heap w))
    ∧ calls_of "bar" fig
      = [Call "bar"
           [VArr ((λ c, c - qd 35 100 / qz 2) <$> np.arange (length results.*1));
            VArr ((λ it, mean (DQN it.2)) <$> results);
            VNum (qd 35 100)]
           [("yerr", VArr ((λ it, std (DQN it.2)) <$> results));
            ("label", VStr "DQN"); ("color", color 0);
            ("alpha", VNum (qd 8 10)); ("capsize", VInt 5);
            ("edgecolor", VStr "black")];
         Call "bar"
           [VArr ((λ c, c + qd 35 100 / qz 2) <$> np.arange (length results.*1));
            VArr ((λ it, mean (DDQN it.2)) <$> results);
            VNum (qd 35 100)]
           [("yerr", VArr ((λ it, std (DDQN it.2)) <$> results));
            ("label", VStr "DDQN"); ("color", color 1);
            ("alpha", VNum (qd 8 10)); ("capsize", VInt 5);
            ("edgecolor", VStr "black")]]
    ∧ calls_of "annotate" fig
      = zip_with value_label
          ((λ c, c - qd 35 100 / qz 2) <$> np.arange (length results.*1))
          ((λ it, mean (DQN it.2)) <$> results)
        ++ zip_with value_label
             ((λ c, c + qd 35 100 / qz 2) <$> np.arange (length results.*1))
             ((λ it, mean (DDQN it.2)) <$> results).
Proof.
  intros Hd Hf Hsub Hnd.
  assert (has_slash "all_environments_comparison.png" = false) as Hname by done.
  unfold plot_all_environments_comparison. cbv zeta.
  rewrite !comprehension_values by done.
  rewrite !makedirs_lift.
  eexists. split; [|split].
  - apply (plots_with_intro save_dir "all_environments_comparison.png");
      try done.
    saves_with_val_steps.
  - cbn [app]. rewrite !calls_of_cons. cbn [c_method].
    rewrite !bar_label_centre, !calls_of_app.
    rewrite !calls_of_labels_other by done. reflexivity.
  - cbn [app]. rewrite !calls_of_cons. cbn [c_method].
    rewrite !bar_label_centre, !calls_of_app, !calls_of_labels.
    change (calls_of "annotate" (Figure (12, 7)%nat [[]] true)) with (@nil call).
    rewrite app_nil_r. reflexivity.
Qed.

(** ** Directories that cannot be used *)




Section directory_facts.

Lemma os_makedirs_file (d : string) (w : world) :
  d ≠ "" → is_Some (w_files w !! d) →
  os_makedirs d w = (inl FileExistsError, w).
Proof.
  intros Hd Hf. unfold os_makedirs, is_file.
  rewrite bool_decide_eq_false_2 by done.
  by rewrite bool_decide_eq_true_2.
Qed.

Lemma bind_refused {A B} (m : M A) (k : A → M B) (e : exn) (w w' : world) :
  m w = (inl e, w') → (m ≫= k) w = (inl e, w').
Proof. intros Hm. unfold mbind, M_bind. by rewrite Hm. Qed.




End directory_facts.


(** X9. Every plotting function begins with [os.makedirs(save_dir,
    exist_ok=True)], which tolerates an existing directory only: when
    [save_dir] names a regular file, each of the five raises
    [FileExistsError] and changes nothing, whatever its other arguments. *)
Theorem plots_refuse_file_as_directory
    (np_sqrt : Qc → Qc) {K : Type} `{PyOrd K} (str : K → string)
    (dqn_rewards ddqn_rewards eval_rewards losses : list Qc)
    (sweep : list (K * list Qc)) (results : results_dict)
    (env_name algo_name param_name save_dir : string) (w : world) :
  save_dir ≠ "" →
  is_Some (w_files w !! save_dir) →
  plot_training_comparison dqn_rewards ddqn_rewards env_name save_dir w
  = (inl FileExistsError, w)
  ∧ plot_evaluation_stability np_sqrt eval_rewards env_name algo_name save_dir w
    = (inl FileExistsError, w)
  ∧ plot_hyperparameter_comparison np_sqrt str sweep param_name env_name save_dir w
    = (inl FileExistsError, w)
  ∧ plot_all_environments_comparison results save_dir w
    = (inl FileExistsError, w)
  ∧ plot_loss_curves losses env_name algo_name save_dir w
    = (inl FileExistsError, w).
Proof.
  intros Hd Hf.
  pose proof (os_makedirs_file save_dir w Hd Hf) as Hmk.
  repeat split; by apply bind_refused.
Qed.


(** ** The further properties at sample inputs *)


(** no DQN rewards: the error comes with the figure left open *)
Lemma plot_training_comparison_empty_witness :
  plot_training_comparison [] rewards_500 "Env" "plots" fresh_world
  = (inl ValueError,
     World ({["plots"]} ∪ w_dirs fresh_world) (w_files fresh_world)
       (w_stdout fresh_world)
       (Figure (12, 6)%nat [[]] false :: w_figs fresh_world)
       (w_heap fresh_world)).
Proof.
  apply (plot_training_comparison_empty [] rewards_500 "Env" "plots" fresh_world).
  - discriminate.
  - reflexivity.
  - left. reflexivity.
Defined.

(** the old table is replaced by a header and the one row before the
    built-in zero mean *)
Lemma create_summary_table_partial_witness :
  fp.create_summary_table builtin_zero_floats "summary_table.txt" used_world
  = (inl ZeroDivisionError,
     World (w_dirs used_world)
       (<["summary_table.txt"
          := Text (table_header
                   +:+ concat_lines (table_row_of <$> cartpole_floats))]>
          (w_files used_world))
       (w_stdout used_world) (w_figs used_world) (w_heap used_world)).
Proof.
  apply (create_summary_table_partial cartpole_floats []
           ("Acrobot-v1",
            fp.EnvResults (fp.AlgoStats (pyfloat 0) (pyfloat 1) [])
                          (fp.AlgoStats (pyfloat 3) (pyfloat 1) []))
           "summary_table.txt" used_world).
  - fresh_writable.
  - constructor; [reflexivity | constructor].
  - reflexivity.
  - reflexivity.
Defined.

(** the sweep and its reversal are drawn alike *)
Lemma hyperparameter_order_independent_witness :
  sorted batch_sweep = sorted (reverse batch_sweep)
  ∧ ∀ w, plot_hyperparameter_comparison (λ q, q) fmt.digits batch_sweep
           "BATCH" "Env" "plots" w
         = plot_hyperparameter_comparison (λ q, q) fmt.digits
             (reverse batch_sweep) "BATCH" "Env" "plots" w.
Proof.
  apply (hyperparameter_order_independent (λ q, q) fmt.digits batch_sweep
           (reverse batch_sweep) "BATCH" "Env" "plots").
  - symmetry. apply reverse_Permutation.
  - intros x y Hx Hy. unfold batch_sweep in Hx, Hy.
    repeat (apply elem_of_cons in Hx as [->|Hx]);
      try (by apply elem_of_nil in Hx);
      repeat (apply elem_of_cons in Hy as [->|Hy]);
      try (by apply elem_of_nil in Hy);
      simpl; intros H1 H2; first [ reflexivity | discriminate ].
Defined.

(** the five plots of one experiment, made twice *)
Lemma plots_twice_same_world_witness :
  runs_twice (plot_training_comparison rewards_500 rewards_500 "Env" "plots")
    fresh_world
  ∧ runs_twice (plot_evaluation_stability (λ q, q) rewards_500 "Env" "DQN" "plots")
      fresh_world
  ∧ runs_twice (plot_hyperparameter_comparison (λ q, q) fmt.digits batch_sweep
                  "BATCH" "Env" "plots") fresh_world
  ∧ runs_twice (plot_all_environments_comparison cartpole_results "plots")
      fresh_world
  ∧ runs_twice (plot_loss_curves rewards_500 "Env" "DQN" "plots") fresh_world.
Proof.
  apply (plots_twice_same_world (λ q, q) fmt.digits rewards_500 rewards_500
           rewards_500 rewards_500 batch_sweep cartpole_results
           "Env" "DQN" "BATCH" "plots" fresh_world); plots_dir_free.
Defined.

(** the chart of the example mapping is written *)
Lemma all_environments_bars_labelled_witness :
  ∃ fig,
    plot_all_environments_comparison cartpole_results "plots" fresh_world
    = (inr tt,
       World ({["plots"]} ∪ w_dirs fresh_world)
         (<["plots/all_environments_comparison.png" := Png fig 300 "tight"]>
            (w_files fresh_world))
         (w_stdout fresh_world) (w_figs fresh_world) (w_heap fresh_world))
    ∧ calls_of "annotate" fig
      = zip_with value_label
          ((λ c, c - qd 35 100 / qz 2) <$> np.arange (length cartpole_results.*1))
          ((λ it, mean (DQN it.2)) <$> cartpole_results)
        ++ zip_with value_label
             ((λ c, c + qd 35 100 / qz 2) <$> np.arange (length cartpole_results.*1))
             ((λ it, mean (DDQN it.2)) <$> cartpole_results).
Proof.
  destruct (all_environments_bars_labelled cartpole_results "plots" fresh_world)
    as (fig & Hrun & _ & Hlabels).
  - discriminate.
  - reflexivity.
  - simpl. intros name Hin%elem_of_singleton. discriminate Hin.
  - apply NoDup_singleton.
  - exists fig. split; [exact Hrun | exact Hlabels].
Defined.

(** [plots] is a file: nothing is plotted *)
Lemma plots_refuse_file_as_directory_witness :
  plot_loss_curves rewards_500 "Env" "DQN" "summary_table.txt" used_world
  = (inl FileExistsError, used_world).
Proof.
  apply (plots_refuse_file_as_directory (λ q, q) fmt.digits rewards_500
           rewards_500 rewards_500 rewards_500 batch_sweep cartpole_results
           "Env" "DQN" "BATCH" "summary_table.txt" used_world).
  - discriminate.
  - exists (Text "old"). reflexivity.
Defined.

